(** * packit-service: Copr build submission and the allowlist

    A shallow embedding of

    - [packit_service/worker/build/copr_build.py]
      ([CoprBuildJobHelper]: its properties, [run_copr_build], [run_build]),
    - [files/scripts/allowlist.py] (the [waiting] command), and
    - the allowlist fixture of [tests_requre/database/test_allowlist.py].

    The helper talks to a forge, the Copr client, a database and a task
    queue.  Those collaborators are modelled as an environment of oracles
    ([Env]): every call is written to a log, and each of them may raise
    instead of returning, as any Python call may.  A computation is a
    function from the database to the calls it made, the database it left
    and either a value or the exception that escaped. *)

From Stdlib Require Import ZArith Lia.
From stdpp Require Import base option list strings pretty gmap.

Open Scope string_scope.
Open Scope Z_scope.

(** ** Python values *)

Module Py.

(** [bool(x)] of an [Optional[str]]: [None] and the empty string are
    falsy. *)
Definition truthy_str (o : option string) : bool :=
  match o with
  | Some s => negb (String.eqb s "")
  | None => false
  end.

(** [bool(x)] of an [Optional[int]]: [None] and [0] are falsy. *)
Definition truthy_int (o : option Z) : bool :=
  match o with
  | Some n => negb (n =? 0)
  | None => false
  end.

(** [bool(x)] of an optional object that defines neither [__bool__] nor
    [__len__]: only [None] is falsy. *)
Definition truthy_obj {A} (o : option A) : bool :=
  match o with
  | Some _ => true
  | None => false
  end.

(** [str(x)] of an [Optional[int]] and of an [Optional[str]], which is
    also what an f-string prints for them. *)
Definition str_int (o : option Z) : string :=
  match o with
  | Some n => pretty n
  | None => "None"
  end.

Definition str_str (o : option string) : string :=
  match o with
  | Some s => s
  | None => "None"
  end.

(** [a or b] on [Optional[str]]. *)
Definition or_str (a b : option string) : option string :=
  if truthy_str a then a else b.

(** [needle in haystack] on strings. *)
Fixpoint contains (needle haystack : string) : bool :=
  String.prefix needle haystack
  || match haystack with
     | EmptyString => false
     | String _ rest => contains needle rest
     end.

(** [sep.join(l)]. *)
Fixpoint join (sep : string) (l : list string) : string :=
  match l with
  | [] => ""
  | [s] => s
  | s :: rest => s +:+ sep +:+ join sep rest
  end.

(** The newline character of ["\n"]. *)
Definition nl : string := String (Ascii.ascii_of_nat 10) EmptyString.

End Py.

(** ** Exceptions

    Instances of [Exception]: the three classes the helper names, and any
    other one with its class name.  [fields_to_change] is the dict of a
    settings exception, field name to (old, new), in insertion order. *)

Inductive exn : Type :=
| PackitCoprException (msg : string)
| PackitCoprSettingsException (msg : string)
    (fields_to_change : list (string * (string * string)))
| CoprRequestException (msg : string)
| OtherException (cls msg : string).

(** [str(ex)]. *)
Definition exn_str (ex : exn) : string :=
  match ex with
  | PackitCoprException m => m
  | PackitCoprSettingsException m _ => m
  | CoprRequestException m => m
  | OtherException _ m => m
  end.

(** [isinstance(ex, PackitCoprSettingsException)] and
    [isinstance(ex, CoprRequestException)]. *)
Definition is_settings_exception (ex : exn) : option (list (string * (string * string))) :=
  match ex with
  | PackitCoprSettingsException _ f => Some f
  | _ => None
  end.

Definition is_copr_request_exception (ex : exn) : bool :=
  match ex with
  | CoprRequestException _ => true
  | _ => false
  end.

(** ** Data *)

(** [ogr.abstract.CommitStatus]. *)
Inductive CommitStatus : Type := pending | success | failure | error.

(** [packit_service.config.Deployment]. *)
Inductive Deployment : Type := prod | stg | dev.

(** [TaskResults(success, details)]; [details] is a dict of strings. *)
Record TaskResults : Type := mkTaskResults {
  tr_success : bool;
  tr_details : gmap string string;
}.

(** The [metadata] of a job ([JobConfig.metadata]) as far as the helper
    reads it. *)
Record JobMetadata : Type := mkJobMetadata {
  jm_project : option string;
  jm_owner : option string;
  jm_preserve_project : option bool;
  jm_list_on_homepage : option bool;
  jm_additional_repos : option (list string);
}.

(** The source-package record [self.srpm_model]. *)
Record SRPMBuildModel : Type := mkSRPM {
  srpm_success : bool;
  srpm_id : Z;
}.

(** The keyword arguments of [CoprBuildModel.get_or_create]. *)
Record CoprBuildArgs : Type := mkCoprBuildArgs {
  cb_build_id : string;
  cb_commit_sha : string;
  cb_project_name : string;
  cb_owner : option string;
  cb_web_url : option string;
  cb_target : string;
  cb_status : string;
  cb_srpm_build : SRPMBuildModel;
  cb_trigger_model : Z;
}.

(** A row of the build table: the arguments it was created from and its
    primary key. *)
Record CoprBuildModel : Type := mkCoprBuildModel {
  cbm_id : Z;
  cbm_args : CoprBuildArgs;
}.

(** The keyword arguments of [create_copr_project_if_not_exists]. *)
Record CoprProjectArgs : Type := mkCoprProjectArgs {
  cp_project : string;
  cp_chroots : list string;
  cp_owner : string;
  cp_description : option string;
  cp_instructions : option string;
  cp_list_on_homepage : option bool;
  cp_preserve_project : option bool;
  cp_additional_repos : option (list string);
  cp_request_admin_if_needed : bool;
}.

(** The build object the Copr client returns. *)
Record CoprBuild : Type := mkCoprBuild {
  build_id : option Z;
}.

(** ** Calls to collaborators

    One constructor per call the helper makes on something outside itself,
    with the arguments as the source passes them.  An omitted [url] keyword
    is [None]. *)
Inductive Call : Type :=
| ReportStatusToAll (description : string) (state : CommitStatus) (url : option string)
| ReportStatusToAllForChroot (description : string) (state : CommitStatus)
    (url : string) (chroot : string)
| CreateSrpmIfNeeded
| SendToSentry (ex : exn)
| CoprBuildGetOrCreate (args : CoprBuildArgs)
| CelerySendTask (name : string) (args : list (option Z)) (countdown : Z)
| CreateCoprProjectIfNotExists (args : CoprProjectArgs)
| PrComment (pr_id : option Z) (body : string)
| BuildProxyCreateFromFile (ownername projectname : string) (path : option string)
| ProjectProxyRequestPermissions (ownername projectname : string)
    (permissions : list (string * bool)).

(** ** Computations

    The build table is keyed by (build_id, target).  A computation reads
    and writes it, logs its calls in order, and ends with a value or with
    an exception. *)

Abbreviation Database := (gmap (string * string) CoprBuildModel).

Inductive Res (A : Type) : Type :=
| Ok (a : A)
| Raise (ex : exn).
Arguments Ok {A} a.
Arguments Raise {A} ex.

Record Run (A : Type) : Type := mkRun {
  calls : list Call;
  db : Database;
  outcome : Res A;
}.
Arguments mkRun {A} calls db outcome.
Arguments calls {A} r.
Arguments db {A} r.
Arguments outcome {A} r.

Definition M (A : Type) : Type := Database -> Run A.

Definition ret {A} (a : A) : M A := fun d => mkRun [] d (Ok a).

Definition raise {A} (ex : exn) : M A := fun d => mkRun [] d (Raise ex).

Definition bind {A B} (m : M A) (k : A -> M B) : M B :=
  fun d =>
    let r := m d in
    match outcome r with
    | Ok a => let r' := k a (db r) in
              mkRun (calls r ++ calls r') (db r') (outcome r')
    | Raise ex => mkRun (calls r) (db r) (Raise ex)
    end.

(** [try: m] with the exception, if any, handed to the code that follows
    as a value; what the [except] clause does with it is written there. *)
Definition attempt {A} (m : M A) : M (Res A) :=
  fun d => let r := m d in mkRun (calls r) (db r) (Ok (outcome r)).

Declare Scope run_scope.
Delimit Scope run_scope with run.
Bind Scope run_scope with M.
Notation "x <- m ;; k" := (bind m (fun x => k))
  (at level 100, m at next level, right associativity) : run_scope.
Notation "m ;; k" := (bind m (fun _ => k))
  (at level 100, right associativity) : run_scope.

(** [for x in l: f(x)]. *)
Fixpoint for_each {A} (l : list A) (f : A -> M unit) : M unit :=
  match l with
  | [] => ret tt
  | x :: rest => (f x ;; for_each rest f)%run
  end.

(** ** The environment *)

Record Env : Type := mkEnv {
  (** the exception a collaborator raises on a call, if it raises *)
  raises : Call -> option exn;
  (** [self.srpm_model] and [self.srpm_path] once
      [create_srpm_if_needed] has returned *)
  srpm_model : SRPMBuildModel;
  srpm_path : option string;
  (** what [build_proxy.create_from_file] returns *)
  created_build : string -> string -> option string -> CoprBuild;
  (** [copr_helper.copr_web_build_url] and
      [copr_helper.get_copr_settings_url] *)
  copr_web_build_url : CoprBuild -> option string;
  get_copr_settings_url : string -> string -> string -> string;
  (** [packit_service.service.urls] *)
  get_srpm_log_url_from_flask : Z -> string;
  get_copr_build_info_url_from_flask : Z -> string;
}.

(** What the helper holds after [__init__]. *)
Record Helper : Type := mkHelper {
  job_build : option JobMetadata;
  job_tests : option JobMetadata;
  deployment : Deployment;
  project_namespace : string;
  project_repo : string;
  md_identifier : option string;
  md_commit_sha : string;
  md_pr_id : option Z;
  db_trigger : Z;
  (** [api.copr_helper.copr_client.config.get("username")] *)
  copr_config_username : option string;
  (** [api.copr_helper.configured_owner] *)
  configured_owner : option string;
  (** the set that [get_build_targets] resolves the configured build
      targets to *)
  build_targets : gset string;
}.

(** ** The build table *)

(** Modelled from the spec: [CoprBuildModel.get_or_create] lives in
    [packit_service.models], which is not among the sources.  It is to
    "create or fetch a persisted build record keyed by (build_id,
    target)": the row under that key is returned when there is one,
    otherwise a row is inserted under the next primary key. *)
Definition fetch_or_insert (a : CoprBuildArgs) (d : Database)
    : CoprBuildModel * Database :=
  match d !! (cb_build_id a, cb_target a) with
  | Some row => (row, d)
  | None =>
      let row := mkCoprBuildModel (Z.of_nat (size d) + 1) a in
      (row, <[(cb_build_id a, cb_target a) := row]> d)
  end.

(** ** [CoprBuildJobHelper] *)

Section CoprBuildJobHelper.

Variable env : Env.
Variable h : Helper.

(** A call on a collaborator: it is logged, and it returns or raises as
    the environment says. *)
Definition call (c : Call) : M unit :=
  fun d =>
    match raises env c with
    | Some ex => mkRun [c] d (Raise ex)
    | None => mkRun [c] d (Ok tt)
    end.

(** [CoprBuildModel.get_or_create(...)] as a call: logged, and free to
    raise like any other. *)
Definition get_or_create (a : CoprBuildArgs) : M CoprBuildModel :=
  fun d =>
    match raises env (CoprBuildGetOrCreate a) with
    | Some ex => mkRun [CoprBuildGetOrCreate a] d (Raise ex)
    | None =>
        let (row, d') := fetch_or_insert a d in
        mkRun [CoprBuildGetOrCreate a] d' (Ok row)
    end.

(** The methods inherited from [BaseBuildJobHelper]; what they do with
    the forge is theirs, the helper only calls them. *)
Definition report_status_to_all (description : string) (state : CommitStatus)
    (url : option string) : M unit :=
  call (ReportStatusToAll description state url).

Definition report_status_to_all_for_chroot (description : string)
    (state : CommitStatus) (url chroot : string) : M unit :=
  call (ReportStatusToAllForChroot description state url chroot).

Definition create_srpm_if_needed : M unit := call CreateSrpmIfNeeded.

Definition default_project_name : string :=
  let stg_suffix := match deployment h with stg => "-stg" | _ => "" end in
  project_namespace h +:+ "-" +:+ project_repo h +:+ "-"
    +:+ Py.str_str (md_identifier h) +:+ stg_suffix.

Definition job_project : string :=
  match job_build h with
  | Some jb =>
      match jm_project jb with
      | Some p => if Py.truthy_str (Some p) then p else default_project_name
      | None => default_project_name
      end
  | None => default_project_name
  end.

Definition job_owner : option string :=
  match job_build h with
  | Some jb =>
      if Py.truthy_str (jm_owner jb) then jm_owner jb
      else copr_config_username h
  | None => copr_config_username h
  end.

Definition preserve_project : option bool :=
  match job_build h with
  | Some jb => jm_preserve_project jb
  | None => None
  end.

Definition list_on_homepage : option bool :=
  match job_build h with
  | Some jb => jm_list_on_homepage jb
  | None => None
  end.

Definition additional_repos : option (list string) :=
  match job_build h with
  | Some jb => jm_additional_repos jb
  | None => None
  end.

(** The table of the settings comment: a header and one row per item of
    [fields_to_change]. *)
Definition settings_row (item : string * (string * string)) : string :=
  "| " +:+ item.1 +:+ " | " +:+ item.2.1 +:+ " | " +:+ item.2.2 +:+ " |" +:+ Py.nl.

Definition settings_table (fields : list (string * (string * string))) : string :=
  fold_left (fun table item => table +:+ settings_row item) fields
    ("| field | old value | new value |" +:+ Py.nl +:+
     "| ----- | --------- | --------- |" +:+ Py.nl).

Definition settings_msg (owner : string)
    (fields : list (string * (string * string))) : string :=
  "Based on your Packit configuration the settings "
  +:+ "of the " +:+ owner +:+ "/" +:+ job_project +:+ " "
  +:+ "Copr project would need to be updated as follows:" +:+ Py.nl
  +:+ Py.nl
  +:+ settings_table fields
  +:+ Py.nl
  +:+ "Packit was unable to update the settings above as it is missing `admin` "
  +:+ "permissions on the " +:+ owner +:+ "/" +:+ job_project +:+ " Copr project." +:+ Py.nl
  +:+ Py.nl
  +:+ "To fix this you can do one of the following:" +:+ Py.nl
  +:+ Py.nl
  +:+ "- Grant Packit `admin` permissions on the " +:+ owner +:+ "/" +:+ job_project +:+ " "
  +:+ "Copr project." +:+ Py.nl
  +:+ "- Change the above Copr project settings manually "
  +:+ "to match the Packit configuration." +:+ Py.nl
  +:+ "- Update the Packit configuration to match the Copr project settings." +:+ Py.nl
  +:+ Py.nl
  +:+ "Please re-trigger the build, once the issue above is fixed." +:+ Py.nl.

Definition permissions_msg (owner : string) : string :=
  "We have requested the `builder` permissions "
  +:+ "for the " +:+ owner +:+ "/" +:+ job_project +:+ " Copr project." +:+ Py.nl
  +:+ Py.nl
  +:+ "Please confirm the request on the "
  +:+ "[" +:+ owner +:+ "/" +:+ job_project +:+ " Copr project permissions page]"
  +:+ "(" +:+ get_copr_settings_url env owner job_project "permissions" +:+ ")"
  +:+ " and re-trigger the build.".

Definition no_build_permission : string :=
  "You don't have permissions to build in this copr.".

Definition project_args (owner : string) : CoprProjectArgs :=
  let overwrite_booleans := String.eqb owner "packit" in
  {| cp_project := job_project;
     cp_chroots := elements (build_targets h);
     cp_owner := owner;
     cp_description := None;
     cp_instructions := None;
     cp_list_on_homepage := if overwrite_booleans then list_on_homepage else None;
     cp_preserve_project := if overwrite_booleans then preserve_project else None;
     cp_additional_repos := additional_repos;
     cp_request_admin_if_needed := true |}.

(** [self.project.pr_comment(...)], guarded by [if self.metadata.pr_id]. *)
Definition comment_if_pr (body : string) : M unit :=
  if Py.truthy_int (md_pr_id h) then call (PrComment (md_pr_id h) body)
  else ret tt.

Definition run_build (target : option string) : M (option Z * option string) :=
  let owner := Py.or_str job_owner (configured_owner h) in
  if negb (Py.truthy_str owner) then
    raise (PackitCoprException
      "Copr owner not set. Use Copr config file or `--owner` when calling packit CLI.")
  else
    let owner := Py.str_str owner in
    (created <- attempt (call (CreateCoprProjectIfNotExists (project_args owner))) ;;
     match created with
     | Raise ex =>
         match is_settings_exception ex with
         | Some fields =>
             comment_if_pr (settings_msg owner fields) ;;
             raise ex
         | None => raise ex
         end
     | Ok _ =>
         submitted <- attempt (call (BuildProxyCreateFromFile owner job_project
                                       (srpm_path env))) ;;
         match submitted with
         | Raise ex =>
             if is_copr_request_exception ex then
               (if Py.contains no_build_permission (exn_str ex) then
                  call (ProjectProxyRequestPermissions owner job_project
                          [("builder", true)]) ;;
                  comment_if_pr (permissions_msg owner)
                else ret tt) ;;
               raise ex
             else raise ex
         | Ok _ =>
             let build := created_build env owner job_project (srpm_path env) in
             ret (build_id build, copr_web_build_url env build)
         end
     end)%run.

Definition copr_build_args (id : option Z) (web_url : option string)
    (chroot : string) : CoprBuildArgs :=
  {| cb_build_id := Py.str_int id;
     cb_commit_sha := md_commit_sha h;
     cb_project_name := job_project;
     cb_owner := job_owner;
     cb_web_url := web_url;
     cb_target := chroot;
     cb_status := "pending";
     cb_srpm_build := srpm_model env;
     cb_trigger_model := db_trigger h |}.

Definition run_copr_build : M TaskResults :=
  if negb (Py.truthy_obj (job_build h) || Py.truthy_obj (job_tests h)) then
    let msg := "No copr_build or tests job defined." in
    ret (mkTaskResults false {[ "msg" := msg ]})
  else
    (report_status_to_all "Building SRPM ..." pending (Some "") ;;
     create_srpm_if_needed ;;
     if negb (srpm_success (srpm_model env)) then
       let msg := "SRPM build failed, check the logs for details." in
       report_status_to_all msg failure
         (Some (get_srpm_log_url_from_flask env (srpm_id (srpm_model env)))) ;;
       ret (mkTaskResults false {[ "msg" := msg ]})
     else
       built <- attempt (run_build None) ;;
       match built with
       | Raise ex =>
           call (SendToSentry ex) ;;
           report_status_to_all ("Submit of the build failed: " +:+ exn_str ex)
             error None ;;
           ret (mkTaskResults false
                  {[ "msg" := "Submit of the Copr build failed.";
                     "error" := exn_str ex ]})
       | Ok (id, web_url) =>
           for_each (elements (build_targets h)) (fun chroot =>
             copr_build <- get_or_create (copr_build_args id web_url chroot) ;;
             let url := get_copr_build_info_url_from_flask env (cbm_id copr_build) in
             report_status_to_all_for_chroot "Starting RPM build..." pending
               url chroot) ;;
           call (CelerySendTask "task.babysit_copr_build" [id] 120) ;;
           ret (mkTaskResults true ∅)
       end)%run.

End CoprBuildJobHelper.

(** ** The allowlist *)

Module Allowlist.

(** A row of the allowlist table. *)
Record AllowlistModel : Type := mkAllowlistModel {
  account_name : string;
  status : string;
}.

Abbreviation Table := (list AllowlistModel).

(** Modelled from the spec: [AllowlistModel] lives in
    [packit_service.models], which is not among the sources.
    [add(account, status)] is an "upsert by account_name" that "returns
    the entry": the row of that account gets the new status, and a row is
    appended when the account has none. *)
Fixpoint upsert (name st : string) (t : Table) : Table :=
  match t with
  | [] => [mkAllowlistModel name st]
  | row :: rest =>
      if String.eqb (account_name row) name
      then mkAllowlistModel name st :: rest
      else row :: upsert name st rest
  end.

Definition add_account (name st : string) (t : Table) : Table * AllowlistModel :=
  (upsert name st t, mkAllowlistModel name st).

(** Modelled from the spec: [get(account) -> entry|absent]. *)
Definition get_account (name : string) (t : Table) : option AllowlistModel :=
  List.find (fun row => String.eqb (account_name row) name) t.

(** Modelled from the spec: [list_by_status(status)], the rows in that
    status. *)
Definition get_accounts_by_status (st : string) (t : Table) : Table :=
  List.filter (fun row => String.eqb (status row) st) t.

(** Modelled from the spec: [remove(account)] "deletes if present, no
    error if absent". *)
Definition remove_account (name : string) (t : Table) : Table :=
  List.filter (fun row => negb (String.eqb (account_name row) name)) t.

(** Modelled from the spec: [Allowlist.accounts_waiting] of
    [packit_service.worker.allowlist], which is not among the sources:
    "all accounts currently in the waiting state". *)
Definition accounts_waiting (t : Table) : list string :=
  account_name <$> get_accounts_by_status "waiting" t.

(** The rows of an account, and the invariant of the table: no account
    name occurs in two rows. *)
Definition entries_of (name : string) (t : Table) : Table :=
  List.filter (fun row => String.eqb (account_name row) name) t.

Definition unique_accounts (t : Table) : Prop :=
  NoDup (account_name <$> t).

(** The administrative operations, and a table as a history of them
    starting from the empty one. *)
Inductive Op : Type :=
| Add (name st : string)
| Remove (name : string).

Definition apply_op (t : Table) (op : Op) : Table :=
  match op with
  | Add name st => (add_account name st t).1
  | Remove name => remove_account name t
  end.

Definition after (ops : list Op) : Table := fold_left apply_op ops [].

(** The fixture [multiple_allowlist_entries] of the tests. *)
Definition multiple_allowlist_entries : Table :=
  after [Add "Rayquaza" "approved_manually";
         Add "Deoxys" "approved_manually";
         Add "Deoxys" "waiting";
         Add "Solgaleo" "waiting";
         Add "Zacian" "approved_manually"].

(** [files/scripts/allowlist.py]: what the [waiting] command writes to
    standard output; [print] ends the line. *)
Definition waiting (t : Table) : string :=
  "Accounts waiting for approval: " +:+ Py.join ", " (accounts_waiting t) +:+ Py.nl.

End Allowlist.

(** ** Vocabulary of the statements *)

(** [s] occurs in [body] as a contiguous piece. *)
Definition occurs_in (s body : string) : Prop :=
  ∃ pre post, body = pre +:+ s +:+ post.

(** The calls [run_copr_build] makes itself, outside the [try] block that
    surrounds [run_build]. *)
Definition outside_try (c : Call) : bool :=
  match c with
  | ReportStatusToAll _ _ _ | ReportStatusToAllForChroot _ _ _ _
  | CreateSrpmIfNeeded | SendToSentry _ | CoprBuildGetOrCreate _
  | CelerySendTask _ _ _ => true
  | CreateCoprProjectIfNotExists _ | PrComment _ _
  | BuildProxyCreateFromFile _ _ _ | ProjectProxyRequestPermissions _ _ _ => false
  end.

(** Every call a computation makes satisfies [P], from any table. *)
Definition calls_only {A} (P : Call → Prop) (m : M A) : Prop :=
  ∀ d, Forall P (calls (m d)).

(** A computation that leaves the build table alone. *)
Definition keeps_db {A} (m : M A) : Prop :=
  ∀ d, db (m d) = d.

(** The primary key of the row under [key], 0 when there is none. *)
Definition row_id (d : Database) (key : string * string) : Z :=
  from_option cbm_id 0 (d !! key).

(** The body of the loop of [run_copr_build] over the build targets, and
    the two calls it makes for a target when the row of that target is
    read from the table [d]. *)
Definition record_and_report (env : Env) (h : Helper) (id : option Z)
    (web_url : option string) (chroot : string) : M unit :=
  (copr_build <- get_or_create env (copr_build_args env h id web_url chroot) ;;
   let url := get_copr_build_info_url_from_flask env (cbm_id copr_build) in
   report_status_to_all_for_chroot env "Starting RPM build..." pending url chroot)%run.

Definition starting_calls (env : Env) (h : Helper) (id : option Z)
    (web_url : option string) (d : Database) (chroot : string) : list Call :=
  [CoprBuildGetOrCreate (copr_build_args env h id web_url chroot);
   ReportStatusToAllForChroot "Starting RPM build..." pending
     (get_copr_build_info_url_from_flask env (row_id d (Py.str_int id, chroot)))
     chroot].

(** ** Concrete inputs

    An environment in which every collaborator returns, a helper for a
    pull request with a build job and two targets, and environments in
    which one collaborator fails. *)

Module Examples.

Definition env_ok : Env :=
  {| raises := fun _ => None;
     srpm_model := mkSRPM true 7;
     srpm_path := Some "/tmp/hello-0.1-1.src.rpm";
     created_build := fun _ _ _ => mkCoprBuild (Some 42);
     copr_web_build_url := fun b =>
       Some ("https://copr.fedorainfracloud.org/coprs/build/" +:+ Py.str_int (build_id b));
     get_copr_settings_url := fun owner project section =>
       "https://copr.fedorainfracloud.org/coprs/" +:+ owner +:+ "/" +:+ project
         +:+ "/" +:+ section +:+ "/";
     get_srpm_log_url_from_flask := fun id => "https://localhost/srpm-build/" +:+ pretty id +:+ "/logs";
     get_copr_build_info_url_from_flask := fun id => "https://localhost/copr-build/" +:+ pretty id |}.

Definition helper_pr : Helper :=
  {| job_build := Some (mkJobMetadata None None (Some true) (Some false) None);
     job_tests := None;
     deployment := prod;
     project_namespace := "packit";
     project_repo := "hello";
     md_identifier := Some "12";
     md_commit_sha := "0e5d8b51fd5dfa460605e1497d22a76d65c6d7fd";
     md_pr_id := Some 12;
     db_trigger := 1;
     copr_config_username := Some "packit";
     configured_owner := None;
     build_targets := {[ "fedora-32-x86_64"; "fedora-33-x86_64" ]} |}.

(** No build job and no test job. *)
Definition helper_no_job : Helper :=
  {| job_build := None;
     job_tests := None;
     deployment := prod;
     project_namespace := "packit";
     project_repo := "hello";
     md_identifier := Some "12";
     md_commit_sha := "0e5d8b51fd5dfa460605e1497d22a76d65c6d7fd";
     md_pr_id := Some 12;
     db_trigger := 1;
     copr_config_username := Some "packit";
     configured_owner := None;
     build_targets := {[ "fedora-32-x86_64"; "fedora-33-x86_64" ]} |}.

(** The source package fails to build. *)
Definition env_srpm_failed : Env :=
  {| raises := fun _ => None;
     srpm_model := mkSRPM false 7;
     srpm_path := None;
     created_build := created_build env_ok;
     copr_web_build_url := copr_web_build_url env_ok;
     get_copr_settings_url := get_copr_settings_url env_ok;
     get_srpm_log_url_from_flask := get_srpm_log_url_from_flask env_ok;
     get_copr_build_info_url_from_flask := get_copr_build_info_url_from_flask env_ok |}.

(** The task queue cannot be reached. *)
Definition env_queue_down : Env :=
  {| raises := fun c =>
       match c with
       | CelerySendTask _ _ _ =>
           Some (OtherException "OperationalError" "[Errno 111] Connection refused")
       | _ => None
       end;
     srpm_model := srpm_model env_ok;
     srpm_path := srpm_path env_ok;
     created_build := created_build env_ok;
     copr_web_build_url := copr_web_build_url env_ok;
     get_copr_settings_url := get_copr_settings_url env_ok;
     get_srpm_log_url_from_flask := get_srpm_log_url_from_flask env_ok;
     get_copr_build_info_url_from_flask := get_copr_build_info_url_from_flask env_ok |}.

(** The Copr project needs other settings and the bot is not its admin. *)
Definition settings_denied : exn :=
  PackitCoprSettingsException "Copr project update failed."
    [("chroots", ("['fedora-32-x86_64']", "['fedora-32-x86_64', 'fedora-33-x86_64']"));
     ("unlisted_on_hp", ("False", "True"))].

Definition env_settings_denied : Env :=
  {| raises := fun c =>
       match c with
       | CreateCoprProjectIfNotExists _ => Some settings_denied
       | _ => None
       end;
     srpm_model := srpm_model env_ok;
     srpm_path := srpm_path env_ok;
     created_build := created_build env_ok;
     copr_web_build_url := copr_web_build_url env_ok;
     get_copr_settings_url := get_copr_settings_url env_ok;
     get_srpm_log_url_from_flask := get_srpm_log_url_from_flask env_ok;
     get_copr_build_info_url_from_flask := get_copr_build_info_url_from_flask env_ok |}.

(** The bot may not build in the Copr project. *)
Definition build_denied : exn :=
  CoprRequestException "You don't have permissions to build in this copr.".

Definition env_build_denied : Env :=
  {| raises := fun c =>
       match c with
       | BuildProxyCreateFromFile _ _ _ => Some build_denied
       | _ => None
       end;
     srpm_model := srpm_model env_ok;
     srpm_path := srpm_path env_ok;
     created_build := created_build env_ok;
     copr_web_build_url := copr_web_build_url env_ok;
     get_copr_settings_url := get_copr_settings_url env_ok;
     get_srpm_log_url_from_flask := get_srpm_log_url_from_flask env_ok;
     get_copr_build_info_url_from_flask := get_copr_build_info_url_from_flask env_ok |}.

End Examples.

(** ** The allowlist commands *)

Module Cli.


Definition remove_account (account_name : string) (t : Allowlist.Table)
    : Allowlist.Table :=
  Allowlist.remove_account account_name t.



End Cli.

(** ** Further vocabulary *)

(** The owner [run_build] submits under: [self.job_owner or
    configured_owner], as a string. *)
Definition submission_owner (h : Helper) : string :=
  Py.str_str (Py.or_str (job_owner h) (configured_owner h)).

(** The two Copr calls of a run of [run_build] that goes well. *)
Definition ensure_call (h : Helper) : Call :=
  CreateCoprProjectIfNotExists (project_args h (submission_owner h)).

Definition submit_call (env : Env) (h : Helper) : Call :=
  BuildProxyCreateFromFile (submission_owner h) (job_project h) (srpm_path env).

Definition is_comment (c : Call) : bool :=
  match c with
  | PrComment _ _ => true
  | _ => false
  end.

(** Whenever the computation ends in an exception, its last call is one
    of the calls outside the [try] block, and that call raised it. *)
Definition escapes_from_last {A} (env : Env) (m : M A) : Prop :=
  ∀ d ex, outcome (m d) = Raise ex →
    ∃ before c, calls (m d) = (before ++ [c])%list
                ∧ outside_try c = true
                ∧ raises env c = Some ex.

(** The computation changes and removes no row of the build table. *)
Definition keeps_rows {A} (m : M A) : Prop :=
  ∀ d key row, d !! key = Some row → db (m d) !! key = Some row.

(** The helper of the same event in another deployment of the service. *)
Definition with_deployment (dep : Deployment) (h : Helper) : Helper :=
  {| job_build := job_build h;
     job_tests := job_tests h;
     deployment := dep;
     project_namespace := project_namespace h;
     project_repo := project_repo h;
     md_identifier := md_identifier h;
     md_commit_sha := md_commit_sha h;
     md_pr_id := md_pr_id h;
     db_trigger := db_trigger h;
     copr_config_username := copr_config_username h;
     configured_owner := configured_owner h;
     build_targets := build_targets h |}.

Module MoreExamples.

(** No owner in the job, none in the Copr configuration. *)
Definition helper_no_owner : Helper :=
  {| job_build := Some (mkJobMetadata None None None None None);
     job_tests := None;
     deployment := prod;
     project_namespace := "packit";
     project_repo := "hello";
     md_identifier := Some "12";
     md_commit_sha := "0e5d8b51fd5dfa460605e1497d22a76d65c6d7fd";
     md_pr_id := Some 12;
     db_trigger := 1;
     copr_config_username := None;
     configured_owner := None;
     build_targets := {[ "fedora-32-x86_64"; "fedora-33-x86_64" ]} |}.

(** Copr cannot be reached when the project is to be ensured. *)
Definition copr_unreachable : exn :=
  OtherException "CoprRequestException" "Unable to connect to https://copr.fedorainfracloud.org".

Definition env_copr_unreachable : Env :=
  {| raises := fun c =>
       match c with
       | CreateCoprProjectIfNotExists _ => Some copr_unreachable
       | _ => None
       end;
     srpm_model := srpm_model Examples.env_ok;
     srpm_path := srpm_path Examples.env_ok;
     created_build := created_build Examples.env_ok;
     copr_web_build_url := copr_web_build_url Examples.env_ok;
     get_copr_settings_url := get_copr_settings_url Examples.env_ok;
     get_srpm_log_url_from_flask := get_srpm_log_url_from_flask Examples.env_ok;
     get_copr_build_info_url_from_flask :=
       get_copr_build_info_url_from_flask Examples.env_ok |}.

(** Copr refuses the source package for a reason other than permissions. *)
Definition srpm_refused : exn :=
  CoprRequestException "Invalid request: the uploaded file is not an SRPM.".

Definition env_srpm_refused : Env :=
  {| raises := fun c =>
       match c with
       | BuildProxyCreateFromFile _ _ _ => Some srpm_refused
       | _ => None
       end;
     srpm_model := srpm_model Examples.env_ok;
     srpm_path := srpm_path Examples.env_ok;
     created_build := created_build Examples.env_ok;
     copr_web_build_url := copr_web_build_url Examples.env_ok;
     get_copr_settings_url := get_copr_settings_url Examples.env_ok;
     get_srpm_log_url_from_flask := get_srpm_log_url_from_flask Examples.env_ok;
     get_copr_build_info_url_from_flask :=
       get_copr_build_info_url_from_flask Examples.env_ok |}.

End MoreExamples.

(** * Properties *)

(** ** Strings *)

Section StringFacts.

Lemma string_app_assoc (a b c : string) : (a +:+ b) +:+ c = a +:+ (b +:+ c).
Proof.
  induction a as [|x a IH]; [reflexivity|].
  change (String x ((a +:+ b) +:+ c) = String x (a +:+ (b +:+ c))).
  by rewrite IH.
Qed.

Lemma string_app_nil_r (a : string) : a +:+ "" = a.
Proof.
  induction a as [|x a IH]; [reflexivity|].
  change (String x (a +:+ "") = String x a). by rewrite IH.
Qed.

Lemma occurs_in_here (s post : string) : occurs_in s (s +:+ post).
Proof. by exists "", post. Qed.

Lemma occurs_in_end (s : string) : occurs_in s s.
Proof. exists "", "". by rewrite string_app_nil_r. Qed.

Lemma occurs_in_app_r (s a b : string) : occurs_in s b → occurs_in s (a +:+ b).
Proof.
  intros (pre & post & ->). exists (a +:+ pre), post.
  by rewrite string_app_assoc.
Qed.

Lemma occurs_in_app_l (s a b : string) : occurs_in s a → occurs_in s (a +:+ b).
Proof.
  intros (pre & post & ->). exists pre, (post +:+ b).
  by rewrite !string_app_assoc.
Qed.

End StringFacts.

(** Finds a piece in a right-nested concatenation. *)
Ltac find_piece :=
  solve [ repeat first [ apply occurs_in_here | apply occurs_in_end
                       | apply occurs_in_app_r ] ].

(** ** Running computations *)

Lemma run_eta {A} (r : Run A) : mkRun (calls r) (db r) (outcome r) = r.
Proof. by destruct r. Qed.

Section RunFacts.

Context {A B : Type}.

Lemma bind_ok (m : M A) (k : A → M B) d a :
  outcome (m d) = Ok a →
  bind m k d = mkRun (calls (m d) ++ calls (k a (db (m d))))
                     (db (k a (db (m d)))) (outcome (k a (db (m d)))).
Proof. intros H. unfold bind. by rewrite H. Qed.

Lemma bind_ret_l (a : A) (k : A → M B) d : bind (ret a) k d = k a d.
Proof. unfold bind, ret. cbn. apply run_eta. Qed.

Lemma bind_attempt (m : M A) (k : Res A → M B) d :
  bind (attempt m) k d
  = mkRun (calls (m d) ++ calls (k (outcome (m d)) (db (m d))))
          (db (k (outcome (m d)) (db (m d))))
          (outcome (k (outcome (m d)) (db (m d)))).
Proof. reflexivity. Qed.

End RunFacts.

Lemma bind_call_returns {B} env c (k : unit → M B) d :
  raises env c = None →
  bind (call env c) k d
  = mkRun (c :: calls (k tt d)) (db (k tt d)) (outcome (k tt d)).
Proof. intros H. unfold bind, call. by rewrite H. Qed.

Lemma bind_attempt_call {B} env c (k : Res unit → M B) d :
  bind (attempt (call env c)) k d
  = let r := k (match raises env c with
                | Some ex => Raise ex
                | None => Ok tt
                end) d in
    mkRun (c :: calls r) (db r) (outcome r).
Proof. unfold bind, attempt, call. by destruct (raises env c). Qed.

(** ** What a computation calls, and what it does to the table *)

Section Compositional.

Context {A B : Type}.

Lemma calls_only_ret P (a : A) : calls_only P (ret a).
Proof. intros d. constructor. Qed.

Lemma calls_only_raise P ex : calls_only P (raise (A:=A) ex).
Proof. intros d. constructor. Qed.

Lemma calls_only_attempt P (m : M A) : calls_only P m → calls_only P (attempt m).
Proof. intros H d. apply H. Qed.

Lemma calls_only_bind P (m : M A) (k : A → M B) :
  calls_only P m → (∀ a, calls_only P (k a)) → calls_only P (bind m k).
Proof.
  intros Hm Hk d. unfold bind.
  destruct (outcome (m d)) as [a|ex]; cbn.
  - apply Forall_app. split; [apply Hm | apply Hk].
  - apply Hm.
Qed.

Lemma keeps_db_ret (a : A) : keeps_db (ret a).
Proof. by intros d. Qed.

Lemma keeps_db_raise ex : keeps_db (raise (A:=A) ex).
Proof. by intros d. Qed.

Lemma keeps_db_attempt (m : M A) : keeps_db m → keeps_db (attempt m).
Proof. intros H d. apply H. Qed.

Lemma keeps_db_bind (m : M A) (k : A → M B) :
  keeps_db m → (∀ a, keeps_db (k a)) → keeps_db (bind m k).
Proof.
  intros Hm Hk d. unfold bind.
  destruct (outcome (m d)) as [a|ex]; cbn.
  - by rewrite Hk, Hm.
  - apply Hm.
Qed.

End Compositional.

Lemma calls_only_call env P c : P c → calls_only P (call env c).
Proof. intros H d. unfold call. destruct (raises env c); by repeat constructor. Qed.

Lemma keeps_db_call env c : keeps_db (call env c).
Proof. intros d. unfold call. by destruct (raises env c). Qed.

(** Takes a computation apart along its binds and branches. *)
Ltac step_through :=
  repeat match goal with
    | |- calls_only _ (bind _ _) => apply calls_only_bind
    | |- calls_only _ (attempt _) => apply calls_only_attempt
    | |- calls_only _ (ret _) => apply calls_only_ret
    | |- calls_only _ (raise _) => apply calls_only_raise
    | |- calls_only _ (call _ _) => apply calls_only_call
    | |- keeps_db (bind _ _) => apply keeps_db_bind
    | |- keeps_db (attempt _) => apply keeps_db_attempt
    | |- keeps_db (ret _) => apply keeps_db_ret
    | |- keeps_db (raise _) => apply keeps_db_raise
    | |- keeps_db (call _ _) => apply keeps_db_call
    | |- ∀ _, _ => intros ?
    | |- _ => progress case_match
    end.

(** ** [run_build] *)

Section RunBuild.

Variable env : Env.
Variable h : Helper.

(** [run_build] does not touch the build table. *)
Lemma run_build_keeps_db (target : option string) :
  keeps_db (run_build env h target).
Proof. unfold run_build, comment_if_pr. step_through. Qed.

(** All its calls are on the Copr client and on the pull request. *)
Lemma run_build_calls_inside (target : option string) :
  calls_only (λ c, outside_try c = false) (run_build env h target).
Proof. unfold run_build, comment_if_pr. step_through; reflexivity. Qed.

End RunBuild.

(** C10. [run_build] never reads its [target] argument: with any value
    for it, the calls, the table and the result are those of the call
    without it, and a project is always ensured for the whole set of build
    targets. *)
Theorem run_build_ignores_target (env : Env) (h : Helper)
    (target : option string) (d : Database) :
  run_build env h target d = run_build env h None d
  ∧ Forall (λ c, match c with
                 | CreateCoprProjectIfNotExists a =>
                     cp_chroots a = elements (build_targets h)
                 | _ => True
                 end) (calls (run_build env h target d)).
Proof.
  split; [reflexivity|]. revert d.
  change (calls_only
            (λ c, match c with
                  | CreateCoprProjectIfNotExists a =>
                      cp_chroots a = elements (build_targets h)
                  | _ => True
                  end) (run_build env h target)).
  unfold run_build, comment_if_pr. step_through; done.
Qed.

(** How [project_args] fills the two booleans. *)
Lemma project_args_booleans (h : Helper) (owner : string) :
  cp_owner (project_args h owner) = owner
  ∧ (owner = "packit" →
     cp_list_on_homepage (project_args h owner) = list_on_homepage h
     ∧ cp_preserve_project (project_args h owner) = preserve_project h)
  ∧ (owner ≠ "packit" →
     cp_list_on_homepage (project_args h owner) = None
     ∧ cp_preserve_project (project_args h owner) = None).
Proof.
  unfold project_args. cbn.
  destruct (String.eqb_spec owner "packit"); repeat split; intros; done.
Qed.

(** C5. Every request [run_build] makes to ensure the Copr project is for
    the resolved owner; it carries the job's list-on-homepage and
    preserve-project settings when that owner is the account [packit], and
    leaves both unset for any other owner.  With an owner resolved, that
    request is the first call [run_build] makes. *)
Theorem run_build_overwrite_booleans (env : Env) (h : Helper)
    (target : option string) (d : Database) :
  Forall (λ c, match c with
               | CreateCoprProjectIfNotExists a =>
                   cp_owner a = Py.str_str (Py.or_str (job_owner h) (configured_owner h))
                   ∧ (cp_owner a = "packit" →
                      cp_list_on_homepage a = list_on_homepage h
                      ∧ cp_preserve_project a = preserve_project h)
                   ∧ (cp_owner a ≠ "packit" →
                      cp_list_on_homepage a = None
                      ∧ cp_preserve_project a = None)
               | _ => True
               end) (calls (run_build env h target d))
  ∧ (Py.truthy_str (Py.or_str (job_owner h) (configured_owner h)) = true →
     ∃ a, head (calls (run_build env h target d))
          = Some (CreateCoprProjectIfNotExists a)).
Proof.
  split.
  - revert d.
    change (calls_only
      (λ c, match c with
            | CreateCoprProjectIfNotExists a =>
                cp_owner a = Py.str_str (Py.or_str (job_owner h) (configured_owner h))
                ∧ (cp_owner a = "packit" →
                   cp_list_on_homepage a = list_on_homepage h
                   ∧ cp_preserve_project a = preserve_project h)
                ∧ (cp_owner a ≠ "packit" →
                   cp_list_on_homepage a = None
                   ∧ cp_preserve_project a = None)
            | _ => True
            end) (run_build env h target)).
    unfold run_build, comment_if_pr. step_through; try done.
    destruct (project_args_booleans h
                (Py.str_str (Py.or_str (job_owner h) (configured_owner h))))
      as (Ho & Hyes & Hno).
    rewrite Ho. auto.
  - intros Howner. unfold run_build. rewrite Howner. cbn [negb].
    rewrite bind_attempt_call. cbn. eauto.
Qed.

Lemma run_build_overwrite_booleans_witness :
  Py.truthy_str (Py.or_str (job_owner Examples.helper_pr)
                   (configured_owner Examples.helper_pr)) = true
  ∧ ∃ a, head (calls (run_build Examples.env_ok Examples.helper_pr None ∅))
         = Some (CreateCoprProjectIfNotExists a).
Proof.
  split; [reflexivity|].
  apply (run_build_overwrite_booleans Examples.env_ok Examples.helper_pr None ∅).
  reflexivity.
Defined.

(** ** The settings comment *)

Section SettingsComment.

Variable h : Helper.

Lemma fold_rows (fields : list (string * (string * string))) (init : string) :
  fold_left (λ table item, table +:+ settings_row item) fields init
  = init +:+ foldr (λ item rest, settings_row item +:+ rest) "" fields.
Proof.
  revert init. induction fields as [|item fields IH]; intros init; cbn.
  - by rewrite string_app_nil_r.
  - by rewrite IH, string_app_assoc.
Qed.

Lemma row_in_table (fields : list (string * (string * string))) item :
  item ∈ fields → occurs_in (settings_row item) (settings_table fields).
Proof.
  intros Hin. unfold settings_table. rewrite fold_rows.
  apply occurs_in_app_r.
  induction Hin as [item fields | item other fields Hin IH]; cbn.
  - apply occurs_in_here.
  - by apply occurs_in_app_r.
Qed.

Lemma row_in_settings_msg (owner : string)
    (fields : list (string * (string * string))) item :
  item ∈ fields → occurs_in (settings_row item) (settings_msg h owner fields).
Proof.
  intros Hin. unfold settings_msg.
  do 9 apply occurs_in_app_r.
  apply occurs_in_app_l. by apply row_in_table.
Qed.

Lemma instructions_in_settings_msg (owner : string)
    (fields : list (string * (string * string))) :
  occurs_in "To fix this you can do one of the following:" (settings_msg h owner fields)
  ∧ occurs_in "Please re-trigger the build, once the issue above is fixed."
      (settings_msg h owner fields).
Proof. unfold settings_msg. split; find_piece. Qed.

End SettingsComment.

(** C6. When ensuring the project raises a settings exception,
    [run_build] leaves the table alone and, for a pull request ([pr_id]
    truthy: pull requests are numbered from 1), makes exactly one more
    call: a comment on that pull request whose body has a table row with
    the old and the new value of every field of [fields_to_change],
    followed by the ways to fix the permissions; once the comment is
    posted the settings exception is raised again.  Without a pull request
    there is no further call and the exception is raised again at once. *)
Theorem run_build_settings_exception (env : Env) (h : Helper)
    (target : option string) (d : Database)
    (msg : string) (fields : list (string * (string * string))) :
  let owner := Py.or_str (job_owner h) (configured_owner h) in
  let ensure := CreateCoprProjectIfNotExists (project_args h (Py.str_str owner)) in
  let ex := PackitCoprSettingsException msg fields in
  let r := run_build env h target d in
  Py.truthy_str owner = true →
  raises env ensure = Some ex →
  db r = d
  ∧ (Py.truthy_int (md_pr_id h) = true →
     ∃ body,
       calls r = [ensure; PrComment (md_pr_id h) body]
       ∧ (∀ field old new, (field, (old, new)) ∈ fields →
            occurs_in ("| " +:+ field +:+ " | " +:+ old +:+ " | " +:+ new +:+ " |" +:+ Py.nl)
              body)
       ∧ occurs_in "To fix this you can do one of the following:" body
       ∧ occurs_in "Please re-trigger the build, once the issue above is fixed." body
       ∧ (raises env (PrComment (md_pr_id h) body) = None → outcome r = Raise ex))
  ∧ (Py.truthy_int (md_pr_id h) = false →
     calls r = [ensure] ∧ outcome r = Raise ex).
Proof.
  intros owner ensure ex r Howner Hraises.
  split; [apply run_build_keeps_db|].
  subst r. unfold run_build. fold owner. rewrite Howner. cbn [negb].
  rewrite bind_attempt_call. fold ensure. rewrite Hraises. subst ex.
  cbn [is_settings_exception]. unfold comment_if_pr.
  split; intros Hpr; rewrite Hpr.
  - exists (settings_msg h (Py.str_str owner) fields).
    split; [|split; [|split; [|split]]].
    + unfold bind, call, raise.
      by destruct (raises env (PrComment _ _)).
    + intros field old new Hin.
      apply (row_in_settings_msg h (Py.str_str owner) fields _ Hin).
    + apply instructions_in_settings_msg.
    + apply instructions_in_settings_msg.
    + intros Hposted. unfold bind, call, raise. by rewrite Hposted.
  - by rewrite bind_ret_l.
Qed.

Lemma run_build_settings_exception_witness :
  Py.truthy_str (Py.or_str (job_owner Examples.helper_pr)
                   (configured_owner Examples.helper_pr)) = true
  ∧ raises Examples.env_settings_denied
      (CreateCoprProjectIfNotExists (project_args Examples.helper_pr "packit"))
    = Some Examples.settings_denied
  ∧ ∃ body,
      calls (run_build Examples.env_settings_denied Examples.helper_pr None ∅)
      = [CreateCoprProjectIfNotExists (project_args Examples.helper_pr "packit");
         PrComment (Some 12) body]
      ∧ occurs_in ("| unlisted_on_hp | False | True |" +:+ Py.nl) body
      ∧ outcome (run_build Examples.env_settings_denied Examples.helper_pr None ∅)
        = Raise Examples.settings_denied.
Proof.
  split; [reflexivity|]. split; [reflexivity|].
  destruct (run_build_settings_exception
              Examples.env_settings_denied Examples.helper_pr None ∅
              "Copr project update failed."
              [("chroots",
                ("['fedora-32-x86_64']", "['fedora-32-x86_64', 'fedora-33-x86_64']"));
               ("unlisted_on_hp", ("False", "True"))]
              eq_refl eq_refl)
    as (_ & Hpr & _).
  destruct (Hpr eq_refl) as (body & Hcalls & Hrows & _ & _ & Hraise).
  exists body. split; [exact Hcalls|]. split.
  - apply (Hrows "unlisted_on_hp" "False" "True").
    apply elem_of_cons. right. apply elem_of_cons. by left.
  - apply Hraise. reflexivity.
Defined.

(** ** The permissions comment *)

Lemma link_in_permissions_msg (env : Env) (h : Helper) (owner : string) :
  occurs_in ("(" +:+ get_copr_settings_url env owner (job_project h) "permissions" +:+ ")")
    (permissions_msg env h owner)
  ∧ occurs_in "Please confirm the request on the " (permissions_msg env h owner)
  ∧ occurs_in " and re-trigger the build." (permissions_msg env h owner).
Proof.
  unfold permissions_msg. split; [|split]; try find_piece.
  do 14 apply occurs_in_app_r.
  exists "", " and re-trigger the build.".
  by rewrite !string_app_assoc.
Qed.

(** C7. When the project is in place and submitting the source package
    raises a [CoprRequestException] that says there is no permission to
    build, [run_build] asks for the [builder] permission on the project.
    When that request returns: for a pull request it posts one comment
    with a link to the permissions page of the project and the request to
    confirm and re-trigger, and once posted the exception is raised again;
    without a pull request there is no further call and the exception is
    raised again.  The table is left alone. *)
Theorem run_build_no_build_permission (env : Env) (h : Helper)
    (target : option string) (d : Database) (msg : string) :
  let owner := Py.or_str (job_owner h) (configured_owner h) in
  let name := Py.str_str owner in
  let ensure := CreateCoprProjectIfNotExists (project_args h name) in
  let submit := BuildProxyCreateFromFile name (job_project h) (srpm_path env) in
  let request :=
    ProjectProxyRequestPermissions name (job_project h) [("builder", true)] in
  let ex := CoprRequestException msg in
  let r := run_build env h target d in
  Py.truthy_str owner = true →
  raises env ensure = None →
  raises env submit = Some ex →
  Py.contains "You don't have permissions to build in this copr." msg = true →
  db r = d
  ∧ (∃ rest, calls r = ensure :: submit :: request :: rest)
  ∧ (raises env request = None →
     (Py.truthy_int (md_pr_id h) = true →
      ∃ body,
        calls r = [ensure; submit; request; PrComment (md_pr_id h) body]
        ∧ occurs_in
            ("(" +:+ get_copr_settings_url env name (job_project h) "permissions" +:+ ")")
            body
        ∧ occurs_in "Please confirm the request on the " body
        ∧ occurs_in " and re-trigger the build." body
        ∧ (raises env (PrComment (md_pr_id h) body) = None → outcome r = Raise ex))
     ∧ (Py.truthy_int (md_pr_id h) = false →
        calls r = [ensure; submit; request] ∧ outcome r = Raise ex)).
Proof.
  intros owner name ensure submit request ex r Howner Hensure Hsubmit Htext.
  split; [apply run_build_keeps_db|].
  subst r. unfold run_build. fold owner. rewrite Howner. cbn [negb].
  fold name. rewrite bind_attempt_call. fold ensure. rewrite Hensure.
  cbv zeta. cbn [calls db outcome].
  rewrite bind_attempt_call. fold submit. rewrite Hsubmit. subst ex.
  cbv zeta. cbn [is_copr_request_exception exn_str calls db outcome].
  change (Py.contains no_build_permission msg) with
    (Py.contains "You don't have permissions to build in this copr." msg).
  rewrite Htext. fold request. unfold comment_if_pr.
  split.
  - unfold bind, call, raise.
    destruct (raises env request); cbn; [by eauto|].
    destruct (Py.truthy_int (md_pr_id h)); cbn; [|by eauto].
    destruct (raises env (PrComment _ _)); cbn; by eauto.
  - intros Hrequest. split; intros Hpr; rewrite Hpr.
    + exists (permissions_msg env h name).
      destruct (link_in_permissions_msg env h name) as (Hlink & Hconfirm & Hagain).
      split; [|split; [|split; [|split]]]; try done.
      * unfold bind, call, raise. rewrite Hrequest. cbn.
        by destruct (raises env (PrComment _ _)).
      * intros Hposted. unfold bind, call, raise.
        rewrite Hrequest. cbn. by rewrite Hposted.
    + unfold bind, call, raise, ret. rewrite Hrequest. by cbn.
Qed.

Lemma run_build_no_build_permission_witness :
  Py.truthy_str (Py.or_str (job_owner Examples.helper_pr)
                   (configured_owner Examples.helper_pr)) = true
  ∧ raises Examples.env_build_denied
      (CreateCoprProjectIfNotExists (project_args Examples.helper_pr "packit")) = None
  ∧ raises Examples.env_build_denied
      (BuildProxyCreateFromFile "packit" "packit-hello-12"
         (Some "/tmp/hello-0.1-1.src.rpm")) = Some Examples.build_denied
  ∧ Py.contains "You don't have permissions to build in this copr."
      (exn_str Examples.build_denied) = true
  ∧ ∃ body,
      calls (run_build Examples.env_build_denied Examples.helper_pr None ∅)
      = [CreateCoprProjectIfNotExists (project_args Examples.helper_pr "packit");
         BuildProxyCreateFromFile "packit" "packit-hello-12"
           (Some "/tmp/hello-0.1-1.src.rpm");
         ProjectProxyRequestPermissions "packit" "packit-hello-12" [("builder", true)];
         PrComment (Some 12) body]
      ∧ occurs_in
          "(https://copr.fedorainfracloud.org/coprs/packit/packit-hello-12/permissions/)"
          body
      ∧ outcome (run_build Examples.env_build_denied Examples.helper_pr None ∅)
        = Raise Examples.build_denied.
Proof.
  split; [reflexivity|]. split; [reflexivity|]. split; [reflexivity|].
  split; [reflexivity|].
  destruct (run_build_no_build_permission
              Examples.env_build_denied Examples.helper_pr None ∅
              "You don't have permissions to build in this copr."
              eq_refl eq_refl eq_refl eq_refl)
    as (_ & _ & Hrequested).
  destruct (Hrequested eq_refl) as [Hpr _].
  destruct (Hpr eq_refl) as (body & Hcalls & Hlink & _ & _ & Hraise).
  exists body. split; [exact Hcalls|]. split; [exact Hlink|].
  apply Hraise. reflexivity.
Defined.

(** ** The build table and the loop over the build targets *)

Section FetchOrInsert.

Variable a : CoprBuildArgs.
Variable d : Database.

Lemma fetch_or_insert_lookup :
  (fetch_or_insert a d).2 !! (cb_build_id a, cb_target a)
  = Some (fetch_or_insert a d).1.
Proof.
  unfold fetch_or_insert.
  destruct (d !! (cb_build_id a, cb_target a)) eqn:Hrow; cbn; [done|].
  apply lookup_insert_eq.
Qed.

Lemma fetch_or_insert_keeps key row :
  d !! key = Some row → (fetch_or_insert a d).2 !! key = Some row.
Proof.
  intros Hkey. unfold fetch_or_insert.
  destruct (d !! (cb_build_id a, cb_target a)) eqn:Hrow; cbn; [done|].
  rewrite lookup_insert_ne; [done|]. congruence.
Qed.

Lemma fetch_or_insert_other key :
  key ≠ (cb_build_id a, cb_target a) →
  (fetch_or_insert a d).2 !! key = d !! key.
Proof.
  intros Hkey. unfold fetch_or_insert.
  destruct (d !! (cb_build_id a, cb_target a)) eqn:Hrow; cbn; [done|].
  by rewrite lookup_insert_ne.
Qed.

Lemma fetch_or_insert_created :
  d !! (cb_build_id a, cb_target a) = None →
  cbm_args (fetch_or_insert a d).1 = a
  ∧ size (fetch_or_insert a d).2 = S (size d).
Proof.
  intros Hrow. unfold fetch_or_insert. rewrite Hrow. cbn.
  split; [done|]. by apply map_size_insert_None.
Qed.

End FetchOrInsert.

Section TargetsLoop.

Variable env : Env.
Variable h : Helper.
Variable id : option Z.
Variable web_url : option string.

Hypothesis Hreturns : ∀ c, outside_try c = true → raises env c = None.

Local Abbreviation body := (record_and_report env h id web_url).
Local Abbreviation starting := (starting_calls env h id web_url).
Local Abbreviation key chroot := (Py.str_int id, chroot).

Lemma record_and_report_run (chroot : string) (d : Database) :
  let found := fetch_or_insert (copr_build_args env h id web_url chroot) d in
  body chroot d
  = mkRun (starting found.2 chroot) found.2 (Ok tt).
Proof.
  intros found. unfold record_and_report, starting_calls, row_id.
  pose proof (fetch_or_insert_lookup (copr_build_args env h id web_url chroot) d)
    as Hrow.
  cbn [cb_build_id cb_target copr_build_args] in Hrow. fold found in Hrow.
  rewrite Hrow. cbn [from_option].
  unfold bind, get_or_create, report_status_to_all_for_chroot, call.
  rewrite !Hreturns by reflexivity. fold found.
  destruct found as [row d']. cbn.
  by rewrite Hreturns.
Qed.

Lemma targets_loop_run (l : list string) (d : Database) :
  let r := for_each l body d in
  outcome r = Ok tt
  ∧ (∀ k row, d !! k = Some row → db r !! k = Some row)
  ∧ (∀ chroot, chroot ∈ l →
       ∃ row, db r !! key chroot = Some row
              ∧ (d !! key chroot = None →
                 cbm_args row = copr_build_args env h id web_url chroot))
  ∧ calls r = flat_map (starting (db r)) l
  ∧ (NoDup l → (∀ chroot, chroot ∈ l → d !! key chroot = None) →
     size (db r) = (size d + length l)%nat).
Proof.
  revert d. induction l as [|t l IH]; intros d r.
  { subst r. cbn. repeat split; try done.
    intros chroot Hin. by apply elem_of_nil in Hin. }
  set (a := copr_build_args env h id web_url t).
  set (d1 := (fetch_or_insert a d).2).
  assert (Hr : r = mkRun (starting d1 t ++ calls (for_each l body d1))
                         (db (for_each l body d1))
                         (outcome (for_each l body d1))).
  { subst r. cbn [for_each]. unfold bind at 1.
    rewrite record_and_report_run. reflexivity. }
  destruct (IH d1) as (Hout & Hkeep & Hrows & Hcalls & Hsize).
  assert (Ht : d1 !! key t = Some (fetch_or_insert a d).1).
  { apply (fetch_or_insert_lookup a d). }
  rewrite Hr. cbn [outcome db calls].
  split; [done|]. split; [|split; [|split]].
  - intros k row Hk. apply Hkeep. by apply fetch_or_insert_keeps.
  - intros chroot Hin. destruct (decide (chroot = t)) as [->|Hne].
    + exists (fetch_or_insert a d).1. split; [by apply Hkeep|].
      intros Hnone. by apply (fetch_or_insert_created a d).
    + apply elem_of_cons in Hin as [?|Hin]; [done|].
      destruct (Hrows chroot Hin) as (row & Hrow & Hnew).
      exists row. split; [done|]. intros Hnone. apply Hnew.
      subst d1. rewrite fetch_or_insert_other; [done|].
      unfold a. cbn. congruence.
  - cbn [flat_map]. rewrite <- Hcalls. f_equal.
    unfold starting_calls, row_id. by rewrite (Hkeep _ _ Ht), Ht.
  - intros Hnodup Hnone. apply NoDup_cons in Hnodup as [Hnotin Hnodup].
    rewrite Hsize; [|done|].
    + subst d1.
      destruct (fetch_or_insert_created a d) as [_ ->]; [|cbn; lia].
      apply (Hnone t). by left.
    + intros chroot Hin. subst d1. rewrite fetch_or_insert_other.
      * apply Hnone. by right.
      * unfold a. cbn. intros [= ->]. done.
Qed.

End TargetsLoop.

(** ** [run_copr_build] *)

(** C2. With neither a build job nor a test job, [run_copr_build] returns
    a failure result carrying a message; it calls no collaborator at all
    (no status report, no source-package build, no submission, no record,
    no task) and leaves the build table as it was. *)
Theorem run_copr_build_no_job (env : Env) (h : Helper) (d : Database) :
  job_build h = None →
  job_tests h = None →
  run_copr_build env h d
  = mkRun [] d
      (Ok (mkTaskResults false {[ "msg" := "No copr_build or tests job defined." ]})).
Proof.
  intros Hbuild Htests. unfold run_copr_build.
  by rewrite Hbuild, Htests.
Qed.

Lemma run_copr_build_no_job_witness :
  job_build Examples.helper_no_job = None
  ∧ job_tests Examples.helper_no_job = None
  ∧ run_copr_build Examples.env_ok Examples.helper_no_job ∅
    = mkRun [] ∅
        (Ok (mkTaskResults false {[ "msg" := "No copr_build or tests job defined." ]})).
Proof.
  split; [reflexivity|]. split; [reflexivity|].
  apply (run_copr_build_no_job Examples.env_ok Examples.helper_no_job ∅);
    reflexivity.
Defined.

(** C3. With a job configured and the source-package record saying the
    build failed, [run_copr_build] makes no call but status reports and
    the source-package build, whatever those do: nothing is submitted to
    Copr.  When those calls return, it reports a failure status with the
    address of the SRPM log to all targets and returns a failure result
    with a message. *)
Theorem run_copr_build_srpm_failed (env : Env) (h : Helper) (d : Database) :
  Py.truthy_obj (job_build h) || Py.truthy_obj (job_tests h) = true →
  srpm_success (srpm_model env) = false →
  Forall (λ c, match c with
               | ReportStatusToAll _ _ _ | CreateSrpmIfNeeded => True
               | _ => False
               end) (calls (run_copr_build env h d))
  ∧ ((∀ c, outside_try c = true → raises env c = None) →
     run_copr_build env h d
     = mkRun
         [ReportStatusToAll "Building SRPM ..." pending (Some "");
          CreateSrpmIfNeeded;
          ReportStatusToAll "SRPM build failed, check the logs for details." failure
            (Some (get_srpm_log_url_from_flask env (srpm_id (srpm_model env))))]
         d
         (Ok (mkTaskResults false
                {[ "msg" := "SRPM build failed, check the logs for details." ]}))).
Proof.
  intros Hjob Hsrpm. unfold run_copr_build.
  rewrite Hjob, Hsrpm. cbn [negb].
  unfold report_status_to_all, create_srpm_if_needed, bind, call, ret.
  split.
  - repeat (destruct (raises env _); cbn); repeat constructor.
  - intros Hret. rewrite !Hret by reflexivity. reflexivity.
Qed.

Lemma run_copr_build_srpm_failed_witness :
  Py.truthy_obj (job_build Examples.helper_pr)
    || Py.truthy_obj (job_tests Examples.helper_pr) = true
  ∧ srpm_success (srpm_model Examples.env_srpm_failed) = false
  ∧ (∀ c, outside_try c = true → raises Examples.env_srpm_failed c = None)
  ∧ run_copr_build Examples.env_srpm_failed Examples.helper_pr ∅
    = mkRun
        [ReportStatusToAll "Building SRPM ..." pending (Some "");
         CreateSrpmIfNeeded;
         ReportStatusToAll "SRPM build failed, check the logs for details." failure
           (Some "https://localhost/srpm-build/7/logs")]
        ∅
        (Ok (mkTaskResults false
               {[ "msg" := "SRPM build failed, check the logs for details." ]})).
Proof.
  split; [reflexivity|]. split; [reflexivity|]. split; [reflexivity|].
  apply (run_copr_build_srpm_failed Examples.env_srpm_failed Examples.helper_pr ∅);
    reflexivity.
Defined.

Section PastSrpm.

Variable env : Env.
Variable h : Helper.
Variable d : Database.

Hypothesis Hjob : Py.truthy_obj (job_build h) || Py.truthy_obj (job_tests h) = true.
Hypothesis Hsrpm : srpm_success (srpm_model env) = true.
Hypothesis Hreturns : ∀ c, outside_try c = true → raises env c = None.

(** The run when [run_build] returns. *)
Lemma run_copr_build_submitted_run (id : option Z) (web_url : option string) :
  outcome (run_build env h None d) = Ok (id, web_url) →
  let loop :=
    for_each (elements (build_targets h)) (record_and_report env h id web_url) d in
  run_copr_build env h d
  = mkRun
      ([ReportStatusToAll "Building SRPM ..." pending (Some ""); CreateSrpmIfNeeded]
       ++ calls (run_build env h None d)
       ++ calls loop
       ++ [CelerySendTask "task.babysit_copr_build" [id] 120])
      (db loop)
      (Ok (mkTaskResults true ∅)).
Proof.
  intros Hrun loop.
  destruct (targets_loop_run env h id web_url Hreturns
              (elements (build_targets h)) d) as (Hloop & _).
  change (outcome loop = Ok tt) in Hloop.
  unfold run_copr_build. rewrite Hjob, Hsrpm. cbn [negb].
  unfold report_status_to_all, create_srpm_if_needed.
  rewrite !bind_call_returns by (apply Hreturns; reflexivity).
  rewrite bind_attempt, Hrun, run_build_keeps_db.
  change (for_each _ _) with (for_each (elements (build_targets h))
                                (record_and_report env h id web_url)).
  fold loop. rewrite (bind_ok _ _ _ _ Hloop).
  rewrite bind_call_returns by (apply Hreturns; reflexivity).
  reflexivity.
Qed.

(** The run when [run_build] raises. *)
Lemma run_copr_build_submit_failed_run (ex : exn) :
  outcome (run_build env h None d) = Raise ex →
  run_copr_build env h d
  = mkRun
      ([ReportStatusToAll "Building SRPM ..." pending (Some ""); CreateSrpmIfNeeded]
       ++ calls (run_build env h None d)
       ++ [SendToSentry ex;
           ReportStatusToAll ("Submit of the build failed: " +:+ exn_str ex) error None])
      d
      (Ok (mkTaskResults false
             {[ "msg" := "Submit of the Copr build failed.";
                "error" := exn_str ex ]})).
Proof.
  intros Hrun.
  unfold run_copr_build. rewrite Hjob, Hsrpm. cbn [negb].
  unfold report_status_to_all, create_srpm_if_needed.
  rewrite !bind_call_returns by (apply Hreturns; reflexivity).
  rewrite bind_attempt, Hrun, run_build_keeps_db.
  rewrite !bind_call_returns by (apply Hreturns; reflexivity).
  reflexivity.
Qed.

End PastSrpm.

(** The run when the source package failed to build. *)
Lemma run_copr_build_srpm_failed_run (env : Env) (h : Helper) (d : Database) :
  Py.truthy_obj (job_build h) || Py.truthy_obj (job_tests h) = true →
  srpm_success (srpm_model env) = false →
  (∀ c, outside_try c = true → raises env c = None) →
  outcome (run_copr_build env h d)
  = Ok (mkTaskResults false
          {[ "msg" := "SRPM build failed, check the logs for details." ]}).
Proof.
  intros Hjob Hsrpm Hreturns.
  unfold run_copr_build. rewrite Hjob, Hsrpm. cbn [negb].
  unfold report_status_to_all, create_srpm_if_needed.
  rewrite !bind_call_returns by (apply Hreturns; reflexivity).
  reflexivity.
Qed.

(** C1. With a job configured, the source package built and every call
    outside [run_build] returning: when [run_build] returns a build id and
    an address, [run_copr_build] returns a success result, and after the
    calls of [run_build] (none of which is one of the following) it makes,
    for each build target once, a create-or-fetch of the row keyed by the
    build id and that target with status [pending], followed by a pending
    status [Starting RPM build...] for that target with the address of that
    row, and then enqueues one task [task.babysit_copr_build] for the build
    id with a countdown of 120.  Afterwards every target has its row in the
    table: the one it had before, or a new one with the arguments of the
    call; with no such row before, the table has grown by one row per
    target. *)
Theorem run_copr_build_submitted (env : Env) (h : Helper) (d : Database)
    (id : option Z) (web_url : option string) :
  let r := run_copr_build env h d in
  let key (chroot : string) := (Py.str_int id, chroot) in
  Py.truthy_obj (job_build h) || Py.truthy_obj (job_tests h) = true →
  srpm_success (srpm_model env) = true →
  (∀ c, outside_try c = true → raises env c = None) →
  outcome (run_build env h None d) = Ok (id, web_url) →
  outcome r = Ok (mkTaskResults true ∅)
  ∧ calls r
    = ([ReportStatusToAll "Building SRPM ..." pending (Some ""); CreateSrpmIfNeeded]
       ++ calls (run_build env h None d)
       ++ flat_map (λ chroot,
            [CoprBuildGetOrCreate (copr_build_args env h id web_url chroot);
             ReportStatusToAllForChroot "Starting RPM build..." pending
               (get_copr_build_info_url_from_flask env (row_id (db r) (key chroot)))
               chroot]) (elements (build_targets h))
       ++ [CelerySendTask "task.babysit_copr_build" [id] 120])%list
  ∧ Forall (λ c, outside_try c = false) (calls (run_build env h None d))
  ∧ NoDup (elements (build_targets h))
  ∧ (∀ chroot, chroot ∈ build_targets h →
       ∃ row, db r !! key chroot = Some row
              ∧ (∀ old, d !! key chroot = Some old → row = old)
              ∧ (d !! key chroot = None →
                 cbm_args row = copr_build_args env h id web_url chroot
                 ∧ cb_build_id (cbm_args row) = Py.str_int id
                 ∧ cb_target (cbm_args row) = chroot
                 ∧ cb_status (cbm_args row) = "pending"))
  ∧ ((∀ chroot, chroot ∈ build_targets h → d !! key chroot = None) →
     size (db r) = (size d + size (build_targets h))%nat).
Proof.
  intros r key Hjob Hsrpm Hreturns Hrun. subst r.
  rewrite (run_copr_build_submitted_run env h d Hjob Hsrpm Hreturns id web_url Hrun).
  destruct (targets_loop_run env h id web_url Hreturns
              (elements (build_targets h)) d)
    as (_ & Hkeep & Hrows & Hcalls & Hsize).
  cbv zeta in *. cbn [calls db outcome].
  split; [done|]. split; [by rewrite Hcalls|].
  split; [apply run_build_calls_inside|].
  split; [apply NoDup_elements|]. split.
  - intros chroot Hin. apply elem_of_elements in Hin.
    destruct (Hrows chroot Hin) as (row & Hrow & Hnew).
    exists row. split; [done|]. split.
    + intros old Hold. apply Hkeep in Hold. fold (key chroot) in Hrow. congruence.
    + intros Hnone. rewrite (Hnew Hnone). done.
  - intros Hnone. apply Hsize; [apply NoDup_elements|].
    intros chroot Hin. apply Hnone. by apply elem_of_elements.
Qed.

Lemma run_copr_build_submitted_witness :
  let r := run_copr_build Examples.env_ok Examples.helper_pr ∅ in
  Py.truthy_obj (job_build Examples.helper_pr)
    || Py.truthy_obj (job_tests Examples.helper_pr) = true
  ∧ srpm_success (srpm_model Examples.env_ok) = true
  ∧ (∀ c, outside_try c = true → raises Examples.env_ok c = None)
  ∧ outcome (run_build Examples.env_ok Examples.helper_pr None ∅)
    = Ok (Some 42, Some "https://copr.fedorainfracloud.org/coprs/build/42")
  ∧ outcome r = Ok (mkTaskResults true ∅)
  ∧ size (db r) = 2%nat.
Proof.
  intros r.
  split; [reflexivity|]. split; [reflexivity|]. split; [reflexivity|].
  split; [reflexivity|].
  destruct (run_copr_build_submitted Examples.env_ok Examples.helper_pr ∅
              (Some 42) (Some "https://copr.fedorainfracloud.org/coprs/build/42")
              eq_refl eq_refl (λ _ _, eq_refl) eq_refl)
    as (Hresult & _ & _ & _ & _ & Hsize).
  split; [exact Hresult|].
  subst r. rewrite Hsize; [reflexivity|]. intros chroot _. apply lookup_empty.
Defined.

(** ** What escapes [run_copr_build] *)

(** C4, as stated, fails: the [try] block of [run_copr_build] surrounds
    [run_build] only.  With the task queue out of reach, [send_task]
    raises after a successful submission and the exception leaves
    [run_copr_build]; so it is not the case that every run ends in a
    result. *)
Lemma run_copr_build_raises_when_queue_down :
  outcome (run_copr_build Examples.env_queue_down Examples.helper_pr ∅)
  = Raise (OtherException "OperationalError" "[Errno 111] Connection refused")
  ∧ ¬ (∀ env h d, ∃ res : TaskResults, outcome (run_copr_build env h d) = Ok res).
Proof.
  assert (Hraises :
    outcome (run_copr_build Examples.env_queue_down Examples.helper_pr ∅)
    = Raise (OtherException "OperationalError" "[Errno 111] Connection refused"))
    by (vm_compute; reflexivity).
  split; [exact Hraises|].
  intros Hnever.
  destruct (Hnever Examples.env_queue_down Examples.helper_pr ∅) as [res Hres].
  rewrite Hraises in Hres. discriminate.
Qed.

(** C4, amended.  When the calls [run_copr_build] makes outside the [try]
    block return, it ends in a result, never in an exception, and a failure
    result carries a message.  In particular every exception that leaves
    [run_build] is caught: it is sent to Sentry, an error status with its
    text is reported to all targets, and the result is a failure with the
    message and the text of the exception; [run_build] has run once, the
    table is as it was. *)
Theorem run_copr_build_catches_submission (env : Env) (h : Helper) (d : Database) :
  let r := run_copr_build env h d in
  (∀ c, outside_try c = true → raises env c = None) →
  (∃ res, outcome r = Ok res
          ∧ (tr_success res = false → is_Some (tr_details res !! "msg")))
  ∧ (∀ ex,
       Py.truthy_obj (job_build h) || Py.truthy_obj (job_tests h) = true →
       srpm_success (srpm_model env) = true →
       outcome (run_build env h None d) = Raise ex →
       r = mkRun
             ([ReportStatusToAll "Building SRPM ..." pending (Some "");
               CreateSrpmIfNeeded]
              ++ calls (run_build env h None d)
              ++ [SendToSentry ex;
                  ReportStatusToAll ("Submit of the build failed: " +:+ exn_str ex)
                    error None])
             d
             (Ok (mkTaskResults false
                    {[ "msg" := "Submit of the Copr build failed.";
                       "error" := exn_str ex ]}))).
Proof.
  intros r Hreturns. subst r. split.
  - destruct (Py.truthy_obj (job_build h) || Py.truthy_obj (job_tests h)) eqn:Hjob.
    + destruct (srpm_success (srpm_model env)) eqn:Hsrpm.
      * destruct (outcome (run_build env h None d)) as [[id web_url]|ex] eqn:Hrun.
        -- rewrite (run_copr_build_submitted_run env h d Hjob Hsrpm Hreturns
                      id web_url Hrun).
           eexists. split; [reflexivity|]. discriminate.
        -- rewrite (run_copr_build_submit_failed_run env h d Hjob Hsrpm Hreturns
                      ex Hrun).
           eexists. split; [reflexivity|]. intros _. cbn [tr_details].
           rewrite lookup_insert_eq. by eexists.
      * rewrite (run_copr_build_srpm_failed_run env h d Hjob Hsrpm Hreturns).
        eexists. split; [reflexivity|]. intros _. cbn [tr_details].
        rewrite lookup_singleton_eq. by eexists.
    + unfold run_copr_build. rewrite Hjob. cbn [negb].
      eexists. split; [reflexivity|]. intros _. cbn [tr_details].
      rewrite lookup_singleton_eq. by eexists.
  - intros ex Hjob Hsrpm Hrun.
    apply (run_copr_build_submit_failed_run env h d Hjob Hsrpm Hreturns ex Hrun).
Qed.

Lemma run_copr_build_catches_submission_witness :
  (∀ c, outside_try c = true → raises Examples.env_settings_denied c = None)
  ∧ outcome (run_build Examples.env_settings_denied Examples.helper_pr None ∅)
    = Raise Examples.settings_denied
  ∧ outcome (run_copr_build Examples.env_settings_denied Examples.helper_pr ∅)
    = Ok (mkTaskResults false
            {[ "msg" := "Submit of the Copr build failed.";
               "error" := "Copr project update failed." ]}).
Proof.
  split; [by intros []|]. split; [reflexivity|].
  destruct (run_copr_build_catches_submission
              Examples.env_settings_denied Examples.helper_pr ∅)
    as [_ Hcaught]; [by intros []|].
  by rewrite (Hcaught Examples.settings_denied eq_refl eq_refl eq_refl).
Defined.

(** ** The allowlist table *)

Module AllowlistFacts.
Import Allowlist.

Lemma names_filter (P : AllowlistModel → bool) (t : Table) (name : string) :
  name ∈ account_name <$> List.filter P t → name ∈ account_name <$> t.
Proof.
  induction t as [|row rest IH]; cbn; [done|].
  destruct (P row); cbn; rewrite ?elem_of_cons; intuition.
Qed.

Lemma filter_unique (P : AllowlistModel → bool) (t : Table) :
  unique_accounts t → unique_accounts (List.filter P t).
Proof.
  unfold unique_accounts.
  induction t as [|row rest IH]; cbn; [done|].
  intros [Hnotin Hrest]%NoDup_cons.
  destruct (P row); cbn; [|by apply IH].
  apply NoDup_cons. split; [|by apply IH].
  intros Hin. by apply Hnotin, (names_filter P).
Qed.

Lemma names_upsert (name st other : string) (t : Table) :
  other ∈ account_name <$> upsert name st t →
  other = name ∨ other ∈ account_name <$> t.
Proof.
  induction t as [|row rest IH]; cbn.
  - rewrite elem_of_cons. intuition.
  - destruct (String.eqb_spec (account_name row) name) as [Heq|Hne]; cbn;
      rewrite !elem_of_cons; intuition.
Qed.

Lemma upsert_unique (name st : string) (t : Table) :
  unique_accounts t → unique_accounts (upsert name st t).
Proof.
  unfold unique_accounts.
  induction t as [|row rest IH]; cbn.
  - intros _. apply NoDup_singleton.
  - intros [Hnotin Hrest]%NoDup_cons.
    destruct (String.eqb_spec (account_name row) name) as [Heq|Hne]; cbn.
    + apply NoDup_cons. by rewrite <- Heq.
    + apply NoDup_cons. split; [|by apply IH].
      intros [?|?]%names_upsert; done.
Qed.

Lemma remove_unique (name : string) (t : Table) :
  unique_accounts t → unique_accounts (remove_account name t).
Proof. apply filter_unique. Qed.

(** The invariant holds after any history. *)
Lemma after_unique (ops : list Op) : unique_accounts (after ops).
Proof.
  unfold after.
  assert (Hfrom : ∀ t, unique_accounts t → unique_accounts (fold_left apply_op ops t)).
  { induction ops as [|op ops IH]; intros t Ht; cbn; [done|].
    apply IH. destruct op as [name st|name]; cbn.
    - by apply upsert_unique.
    - by apply remove_unique. }
  apply Hfrom. constructor.
Qed.

Lemma entries_of_absent (name : string) (t : Table) :
  name ∉ account_name <$> t → entries_of name t = [].
Proof.
  induction t as [|row rest IH]; cbn; [done|].
  rewrite not_elem_of_cons. intros [Hne Hrest].
  destruct (String.eqb_spec (account_name row) name); [congruence|].
  by apply IH.
Qed.

Lemma entries_of_upsert (name st : string) (t : Table) :
  unique_accounts t →
  entries_of name (upsert name st t) = [mkAllowlistModel name st].
Proof.
  unfold unique_accounts.
  induction t as [|row rest IH]; cbn.
  - intros _. by rewrite String.eqb_refl.
  - intros [Hnotin Hrest]%NoDup_cons.
    destruct (String.eqb_spec (account_name row) name) as [Heq|Hne]; cbn.
    + rewrite String.eqb_refl. f_equal.
      apply entries_of_absent. by rewrite <- Heq.
    + destruct (String.eqb_spec (account_name row) name); [done|].
      by apply IH.
Qed.

Lemma get_account_upsert (name st : string) (t : Table) :
  get_account name (upsert name st t) = Some (mkAllowlistModel name st).
Proof.
  unfold get_account.
  induction t as [|row rest IH]; cbn.
  - by rewrite String.eqb_refl.
  - destruct (String.eqb_spec (account_name row) name) as [Heq|Hne]; cbn.
    + by rewrite String.eqb_refl.
    + by destruct (String.eqb_spec (account_name row) name).
Qed.

(** An account is listed under a status exactly when its row has it. *)
Lemma listed_iff (st name : string) (t : Table) :
  unique_accounts t →
  name ∈ account_name <$> get_accounts_by_status st t
  ↔ get_account name t = Some (mkAllowlistModel name st).
Proof.
  unfold unique_accounts, get_accounts_by_status, get_account.
  induction t as [|[n s] rest IH]; cbn.
  - intros _. split; [by intros ?%elem_of_nil|done].
  - intros [Hnotin Hrest]%NoDup_cons.
    destruct (String.eqb_spec n name) as [->|Hname].
    + destruct (String.eqb_spec s st) as [->|Hst]; cbn.
      * split; [done|]. intros _. by left.
      * split; [|congruence].
        intros Hin%names_filter. done.
    + rewrite <- (IH Hrest).
      destruct (String.eqb_spec s st); cbn; [|done].
      rewrite elem_of_cons. intuition congruence.
Qed.

End AllowlistFacts.

(** C8. After any history of additions and removals no account name
    occurs in two rows of the allowlist.  Adding an account twice leaves
    exactly one row for it, with the status added last, and that row is
    what [get_account] returns; the listing of any status names no account
    twice.  In the fixture of the tests, ["Deoxys"] was added as
    ["approved_manually"] and then as ["waiting"]: it has one row, in
    status ["waiting"], and the two listings of the test have two rows
    each. *)
Theorem allowlist_one_entry_per_account (ops : list Allowlist.Op)
    (name st1 st2 st : string) :
  let t := Allowlist.after ops in
  let twice :=
    (Allowlist.add_account name st2 (Allowlist.add_account name st1 t).1).1 in
  Allowlist.unique_accounts t
  ∧ Allowlist.entries_of name twice = [Allowlist.mkAllowlistModel name st2]
  ∧ Allowlist.get_account name twice = Some (Allowlist.mkAllowlistModel name st2)
  ∧ NoDup (Allowlist.account_name <$> Allowlist.get_accounts_by_status st t)
  ∧ Allowlist.entries_of "Deoxys" Allowlist.multiple_allowlist_entries
    = [Allowlist.mkAllowlistModel "Deoxys" "waiting"]
  ∧ Allowlist.get_account "Deoxys" Allowlist.multiple_allowlist_entries
    = Some (Allowlist.mkAllowlistModel "Deoxys" "waiting")
  ∧ length (Allowlist.get_accounts_by_status "waiting"
              Allowlist.multiple_allowlist_entries) = 2%nat
  ∧ length (Allowlist.get_accounts_by_status "approved_manually"
              Allowlist.multiple_allowlist_entries) = 2%nat.
Proof.
  intros t twice. subst twice. cbn [Allowlist.add_account fst].
  pose proof (AllowlistFacts.after_unique ops) as Hunique. fold t in Hunique.
  split; [done|]. split.
  { apply AllowlistFacts.entries_of_upsert.
    by apply AllowlistFacts.upsert_unique. }
  split; [apply AllowlistFacts.get_account_upsert|].
  split; [by apply (AllowlistFacts.filter_unique _ t)|].
  repeat split; reflexivity.
Qed.

(** C9. The [waiting] command writes one line: a heading, then the names
    returned by [accounts_waiting] joined by a comma and a space, and
    nothing else.  After any history those names are the accounts whose
    row is in status ["waiting"], each once.  On the fixture of the tests
    the line names ["Deoxys"] and ["Solgaleo"]. *)
Theorem waiting_prints_accounts (ops : list Allowlist.Op) :
  let t := Allowlist.after ops in
  Allowlist.waiting t
  = "Accounts waiting for approval: "
      +:+ Py.join ", " (Allowlist.accounts_waiting t) +:+ Py.nl
  ∧ NoDup (Allowlist.accounts_waiting t)
  ∧ (∀ name, name ∈ Allowlist.accounts_waiting t
             ↔ Allowlist.get_account name t
               = Some (Allowlist.mkAllowlistModel name "waiting"))
  ∧ Allowlist.waiting Allowlist.multiple_allowlist_entries
    = "Accounts waiting for approval: Deoxys, Solgaleo" +:+ Py.nl.
Proof.
  intros t.
  pose proof (AllowlistFacts.after_unique ops) as Hunique. fold t in Hunique.
  split; [reflexivity|]. split.
  { by apply (AllowlistFacts.filter_unique _ t). }
  split; [|reflexivity].
  intros name. by apply AllowlistFacts.listed_iff.
Qed.

(** * Further properties *)

(** ** [run_build], path by path *)

(** Splits a run of [run_build] into its paths: the owner, then each call
    that may raise, then the tests of the [except] clauses. *)
Ltac run_build_paths env h :=
  unfold run_build;
  destruct (Py.truthy_str (Py.or_str (job_owner h) (configured_owner h))) eqn:Howner;
  cbn [negb];
  [ rewrite bind_attempt_call;
    destruct (raises env (CreateCoprProjectIfNotExists _)) as [ex|] eqn:Hensure;
    cbv zeta; cbn [calls db outcome];
    [ destruct (is_settings_exception ex) as [fields|] eqn:Hsettings;
      [ unfold comment_if_pr; destruct (Py.truthy_int (md_pr_id h)) eqn:Hpr;
        unfold bind, call, raise, ret;
        [ destruct (raises env (PrComment _ _)) as [ex'|] eqn:Hcomment | ]
      | unfold raise ]
    | rewrite bind_attempt_call;
      destruct (raises env (BuildProxyCreateFromFile _ _ _)) as [ex|] eqn:Hsubmit;
      cbv zeta; cbn [calls db outcome];
      [ destruct (is_copr_request_exception ex) eqn:Hcopr;
        [ destruct (Py.contains no_build_permission (exn_str ex)) eqn:Htext;
          [ unfold comment_if_pr, bind, call, raise, ret;
            destruct (raises env (ProjectProxyRequestPermissions _ _ _))
              as [ex'|] eqn:Hrequest;
            [ | destruct (Py.truthy_int (md_pr_id h)) eqn:Hpr;
                [ destruct (raises env (PrComment _ _)) as [ex''|] eqn:Hcomment | ] ]
          | unfold bind, raise, ret ]
        | unfold raise ]
      | unfold ret ] ]
  | unfold raise ];
  cbn [calls db outcome app].

(** X1. The owner [run_build] works for is the owner of the build job
    when that is set, else the user name of the Copr configuration when
    that is set, else the configured owner.  When none of the three is set
    (absent or empty) [run_build] raises a [PackitCoprException] before
    any call; otherwise its first call ensures the project of that
    owner. *)
Theorem run_build_owner_resolution (env : Env) (h : Helper)
    (target : option string) (d : Database) :
  let explicit :=
    match job_build h with
    | Some jb => jm_owner jb
    | None => None
    end in
  let owner :=
    if Py.truthy_str explicit then explicit
    else if Py.truthy_str (copr_config_username h) then copr_config_username h
    else configured_owner h in
  (Py.truthy_str owner = false →
   run_build env h target d
   = mkRun [] d
       (Raise (PackitCoprException
          "Copr owner not set. Use Copr config file or `--owner` when calling packit CLI.")))
  ∧ (Py.truthy_str owner = true →
     ∃ rest, calls (run_build env h target d)
             = CreateCoprProjectIfNotExists (project_args h (Py.str_str owner)) :: rest).
Proof.
  intros explicit owner.
  assert (Hsame : Py.or_str (job_owner h) (configured_owner h) = owner).
  { subst owner explicit. unfold Py.or_str, job_owner.
    destruct (job_build h) as [jb|]; [|done].
    destruct (Py.truthy_str (jm_owner jb)) eqn:Hjob; [by rewrite Hjob|done]. }
  split; intros Hset.
  - unfold run_build. by rewrite Hsame, Hset.
  - unfold run_build. rewrite Hsame, Hset. cbn [negb].
    rewrite bind_attempt_call. cbn. eauto.
Qed.

(** X2. [run_build] returns a result exactly when an owner is resolved
    and both Copr calls return; the result is then the id of the build
    Copr created and its web address, and the two Copr calls are all it
    did: nothing was commented and no permission was requested. *)
Theorem run_build_result (env : Env) (h : Helper) (target : option string)
    (d : Database) (v : option Z * option string) :
  let r := run_build env h target d in
  let build := created_build env (submission_owner h) (job_project h) (srpm_path env) in
  (outcome r = Ok v
   ↔ Py.truthy_str (Py.or_str (job_owner h) (configured_owner h)) = true
     ∧ raises env (ensure_call h) = None
     ∧ raises env (submit_call env h) = None
     ∧ v = (build_id build, copr_web_build_url env build))
  ∧ (outcome r = Ok v → calls r = [ensure_call h; submit_call env h]).
Proof.
  intros r build. subst r build.
  unfold ensure_call, submit_call, submission_owner.
  run_build_paths env h;
    (split; [split; [intros Hv | intros (Ho & He & Hs & Hv)] | intros Hv]);
    try discriminate; try congruence.
  repeat split; congruence.
Qed.

(** X3. When ensuring the project raises, whatever the exception,
    [run_build] submits nothing and requests no permission, and it ends in
    an exception; when the exception is not a settings exception,
    ensuring was its only call and that exception is the one raised. *)
Theorem run_build_ensure_failed (env : Env) (h : Helper)
    (target : option string) (d : Database) (raised : exn) :
  let r := run_build env h target d in
  Py.truthy_str (Py.or_str (job_owner h) (configured_owner h)) = true →
  raises env (ensure_call h) = Some raised →
  Forall (λ c, match c with
               | BuildProxyCreateFromFile _ _ _
               | ProjectProxyRequestPermissions _ _ _ => False
               | _ => True
               end) (calls r)
  ∧ (∃ ex', outcome r = Raise ex')
  ∧ (is_settings_exception raised = None
     → r = mkRun [ensure_call h] d (Raise raised)).
Proof.
  intros r Hset Hraises. subst r. revert Hraises.
  unfold ensure_call, submission_owner.
  run_build_paths env h; intros Hraises; try congruence;
    (split; [repeat constructor | split; [by eauto | congruence]]).
Qed.

(** X4. When the project is in place and submitting the source package
    raises anything but a [CoprRequestException] that says there is no
    permission to build, [run_build] raises that exception again at once:
    it requests no permission and posts no comment. *)
Theorem run_build_submit_failed (env : Env) (h : Helper)
    (target : option string) (d : Database) (raised : exn) :
  Py.truthy_str (Py.or_str (job_owner h) (configured_owner h)) = true →
  raises env (ensure_call h) = None →
  raises env (submit_call env h) = Some raised →
  is_copr_request_exception raised
    && Py.contains "You don't have permissions to build in this copr." (exn_str raised)
  = false →
  run_build env h target d
  = mkRun [ensure_call h; submit_call env h] d (Raise raised).
Proof.
  intros Hset Hensure Hsubmit Hother. revert Hensure Hsubmit Hother.
  change "You don't have permissions to build in this copr." with no_build_permission.
  unfold ensure_call, submit_call, submission_owner.
  run_build_paths env h; intros Hens Hsub Hother; try congruence;
    simplify_eq; try done.
  all: rewrite Hcopr, ?Htext in Hother; done.
Qed.

Lemma run_build_ensure_failed_witness :
  Py.truthy_str (Py.or_str (job_owner Examples.helper_pr)
                   (configured_owner Examples.helper_pr)) = true
  ∧ raises MoreExamples.env_copr_unreachable (ensure_call Examples.helper_pr)
    = Some MoreExamples.copr_unreachable
  ∧ run_build MoreExamples.env_copr_unreachable Examples.helper_pr None ∅
    = mkRun [ensure_call Examples.helper_pr] ∅ (Raise MoreExamples.copr_unreachable).
Proof.
  split; [reflexivity|]. split; [reflexivity|].
  destruct (run_build_ensure_failed MoreExamples.env_copr_unreachable
              Examples.helper_pr None ∅ MoreExamples.copr_unreachable
              eq_refl eq_refl) as (_ & _ & Honly).
  apply Honly. reflexivity.
Defined.

Lemma run_build_submit_failed_witness :
  Py.truthy_str (Py.or_str (job_owner Examples.helper_pr)
                   (configured_owner Examples.helper_pr)) = true
  ∧ raises MoreExamples.env_srpm_refused (ensure_call Examples.helper_pr) = None
  ∧ raises MoreExamples.env_srpm_refused
      (submit_call MoreExamples.env_srpm_refused Examples.helper_pr)
    = Some MoreExamples.srpm_refused
  ∧ is_copr_request_exception MoreExamples.srpm_refused
      && Py.contains "You don't have permissions to build in this copr."
           (exn_str MoreExamples.srpm_refused) = false
  ∧ run_build MoreExamples.env_srpm_refused Examples.helper_pr None ∅
    = mkRun [ensure_call Examples.helper_pr;
             submit_call MoreExamples.env_srpm_refused Examples.helper_pr]
        ∅ (Raise MoreExamples.srpm_refused).
Proof.
  split; [reflexivity|]. split; [reflexivity|]. split; [reflexivity|].
  split; [reflexivity|].
  apply (run_build_submit_failed MoreExamples.env_srpm_refused Examples.helper_pr
           None ∅ MoreExamples.srpm_refused); reflexivity.
Defined.

(** X5. Every call of a run of [run_build] is for one owner and one
    project: the project is ensured with the arguments built for the
    submission owner, the source package at [srpm_path] is submitted to
    that owner's project, a permission request is for [builder] on that
    project, and a comment goes to the pull request of the event, which
    then has a number other than 0.  [run_build] makes no other call. *)
Theorem run_build_calls_one_project (env : Env) (h : Helper)
    (target : option string) (d : Database) :
  Forall (λ c, match c with
               | CreateCoprProjectIfNotExists a =>
                   a = project_args h (submission_owner h)
               | BuildProxyCreateFromFile owner project path =>
                   owner = submission_owner h ∧ project = job_project h
                   ∧ path = srpm_path env
               | ProjectProxyRequestPermissions owner project permissions =>
                   owner = submission_owner h ∧ project = job_project h
                   ∧ permissions = [("builder", true)]
               | PrComment pr _ =>
                   pr = md_pr_id h ∧ ∃ n, pr = Some n ∧ n ≠ 0
               | _ => False
               end) (calls (run_build env h target d)).
Proof.
  assert (Hnumber : Py.truthy_int (md_pr_id h) = true →
                    ∃ n, md_pr_id h = Some n ∧ n ≠ 0).
  { unfold Py.truthy_int. destruct (md_pr_id h) as [n|]; [|done].
    intros Hn. exists n. split; [done|]. intros ->. done. }
  unfold submission_owner.
  run_build_paths env h; repeat constructor; by auto.
Qed.

(** X6. A comment on the pull request, if [run_build] posts one, is the
    last call it makes, and [run_build] then ends in an exception: there
    is at most one comment in a run, and none in a run that returns. *)
Theorem run_build_comment_is_last (env : Env) (h : Helper)
    (target : option string) (d : Database)
    (i : nat) (pr : option Z) (body : string) :
  let r := run_build env h target d in
  calls r !! i = Some (PrComment pr body) →
  S i = length (calls r) ∧ ∃ ex, outcome r = Raise ex.
Proof.
  intros r. subst r.
  run_build_paths env h; intros Hi;
    repeat (destruct i as [|i]; cbn in Hi; try discriminate);
    split; by eauto.
Qed.

Lemma run_build_comment_is_last_witness :
  calls (run_build Examples.env_settings_denied Examples.helper_pr None ∅) !! 1%nat
  = Some (PrComment (Some 12) (settings_msg Examples.helper_pr "packit"
            [("chroots",
              ("['fedora-32-x86_64']", "['fedora-32-x86_64', 'fedora-33-x86_64']"));
             ("unlisted_on_hp", ("False", "True"))]))
  ∧ 2%nat = length (calls (run_build Examples.env_settings_denied
                             Examples.helper_pr None ∅)).
Proof.
  split; [reflexivity|].
  apply (run_build_comment_is_last Examples.env_settings_denied Examples.helper_pr
           None ∅ 1%nat (Some 12)
           (settings_msg Examples.helper_pr "packit"
              [("chroots",
                ("['fedora-32-x86_64']", "['fedora-32-x86_64', 'fedora-33-x86_64']"));
               ("unlisted_on_hp", ("False", "True"))])).
  reflexivity.
Defined.

(** ** [run_copr_build], whatever the collaborators do *)

Lemma bind_call {B} env c (k : unit → M B) d :
  bind (call env c) k d
  = match raises env c with
    | Some ex => mkRun [c] d (Raise ex)
    | None => mkRun (c :: calls (k tt d)) (db (k tt d)) (outcome (k tt d))
    end.
Proof. unfold bind, call. by destruct (raises env c). Qed.

(** What the calls after a returned [run_build] do to the table is what
    the loop does, and they end in success or in an exception. *)
Lemma after_submission_run (env : Env) (h : Helper) (id : option Z)
    (web_url : option string) (d : Database) :
  let loop :=
    for_each (elements (build_targets h)) (record_and_report env h id web_url) d in
  let send := CelerySendTask "task.babysit_copr_build" [id] 120 in
  let r :=
    bind (for_each (elements (build_targets h)) (record_and_report env h id web_url))
      (λ _, bind (call env send) (λ _, ret (mkTaskResults true ∅))) d in
  db r = db loop
  ∧ (calls r = calls loop ∧ (∃ ex, outcome r = Raise ex) ∧ (∃ ex, outcome loop = Raise ex)
     ∨ calls r = (calls loop ++ [send])%list ∧ outcome loop = Ok tt
       ∧ (outcome r = Ok (mkTaskResults true ∅) ∨ ∃ ex, outcome r = Raise ex)).
Proof.
  intros loop send r.
  assert (Hr : r = match outcome loop with
                   | Ok _ =>
                       match raises env send with
                       | Some ex => mkRun (calls loop ++ [send]) (db loop) (Raise ex)
                       | None =>
                           mkRun (calls loop ++ [send]) (db loop)
                             (Ok (mkTaskResults true ∅))
                       end
                   | Raise ex => mkRun (calls loop) (db loop) (Raise ex)
                   end).
  { subst r. unfold bind, call, ret. fold loop.
    destruct (outcome loop); [|done]. by destruct (raises env send). }
  rewrite Hr. clear Hr r.
  destruct (outcome loop) as [[]|ex]; [destruct (raises env send)|]; cbn;
    (split; [done|]).
  - right. split; [done|]. split; [done|]. right. by eauto.
  - right. split; [done|]. split; [done|]. by left.
  - left. split; [done|]. by eauto.
Qed.

Section AnyEnvironment.

Variable env : Env.
Variable h : Helper.

(** The run of the loop body, whatever the two calls do. *)
Lemma record_and_report_any (id : option Z) (web_url : option string)
    (chroot : string) (d : Database) :
  let a := copr_build_args env h id web_url chroot in
  let found := fetch_or_insert a d in
  let report :=
    ReportStatusToAllForChroot "Starting RPM build..." pending
      (get_copr_build_info_url_from_flask env (cbm_id found.1)) chroot in
  record_and_report env h id web_url chroot d
  = match raises env (CoprBuildGetOrCreate a) with
    | Some ex => mkRun [CoprBuildGetOrCreate a] d (Raise ex)
    | None =>
        match raises env report with
        | Some ex => mkRun [CoprBuildGetOrCreate a; report] found.2 (Raise ex)
        | None => mkRun [CoprBuildGetOrCreate a; report] found.2 (Ok tt)
        end
    end.
Proof.
  intros a found report. subst report.
  unfold record_and_report, bind, get_or_create, report_status_to_all_for_chroot, call.
  fold a. destruct (raises env (CoprBuildGetOrCreate a)); [done|].
  fold found. destruct found as [row d']. cbn.
  by destruct (raises env _).
Qed.

Lemma targets_loop_any (id : option Z) (web_url : option string)
    (l : list string) (d : Database) :
  let r := for_each l (record_and_report env h id web_url) d in
  (∀ k row, d !! k = Some row → db r !! k = Some row)
  ∧ (∀ k, (∀ chroot, chroot ∈ l → k ≠ (Py.str_int id, chroot)) → db r !! k = d !! k)
  ∧ Forall (λ c, match c with
                 | CoprBuildGetOrCreate _ | ReportStatusToAllForChroot _ _ _ _ => True
                 | _ => False
                 end) (calls r)
  ∧ (outcome r = Ok tt →
     ∀ chroot, chroot ∈ l → is_Some (db r !! (Py.str_int id, chroot))).
Proof.
  revert d. induction l as [|t l IH]; intros d r.
  { subst r. cbn. split; [done|]. split; [done|]. split; [done|].
    intros _ chroot Hin. by apply elem_of_nil in Hin. }
  set (a := copr_build_args env h id web_url t).
  set (found := fetch_or_insert a d).
  set (report := ReportStatusToAllForChroot "Starting RPM build..." pending
                   (get_copr_build_info_url_from_flask env (cbm_id found.1)) t).
  set (rest := for_each l (record_and_report env h id web_url) found.2).
  assert (Hr : r = match raises env (CoprBuildGetOrCreate a) with
                   | Some ex => mkRun [CoprBuildGetOrCreate a] d (Raise ex)
                   | None =>
                       match raises env report with
                       | Some ex =>
                           mkRun [CoprBuildGetOrCreate a; report] found.2 (Raise ex)
                       | None =>
                           mkRun ([CoprBuildGetOrCreate a; report] ++ calls rest)
                             (db rest) (outcome rest)
                       end
                   end).
  { subst r. cbn [for_each]. unfold bind.
    rewrite record_and_report_any. fold a found report.
    destruct (raises env (CoprBuildGetOrCreate a)); [done|].
    by destruct (raises env report). }
  rewrite Hr. clear Hr r.
  destruct (raises env (CoprBuildGetOrCreate a)); cbn [calls db outcome].
  { split; [done|]. split; [done|]. split; [by repeat constructor|]. done. }
  assert (Ht : found.2 !! (Py.str_int id, t) = Some found.1)
    by apply (fetch_or_insert_lookup a d).
  assert (Hkeep1 : ∀ k row, d !! k = Some row → found.2 !! k = Some row)
    by (intros k row; apply fetch_or_insert_keeps).
  assert (Hframe1 : ∀ k, (∀ chroot, chroot ∈ t :: l → k ≠ (Py.str_int id, chroot)) →
                         found.2 !! k = d !! k).
  { intros k Hk. apply (fetch_or_insert_other a d). apply Hk. by left. }
  destruct (raises env report); cbn [calls db outcome].
  { split; [done|]. split; [done|]. split; [by repeat constructor|]. done. }
  destruct (IH found.2) as (Hkeep & Hframe & Hcalls & Hdone). fold rest in Hkeep, Hframe, Hcalls, Hdone.
  split; [|split; [|split]].
  - intros k row Hk. by apply Hkeep, Hkeep1.
  - intros k Hk. rewrite Hframe; [by apply Hframe1|].
    intros chroot Hin. apply Hk. by right.
  - cbn. by repeat constructor.
  - intros Hok chroot [->|Hin]%elem_of_cons.
    + rewrite (Hkeep _ _ Ht). by eexists.
    + by apply Hdone.
Qed.

End AnyEnvironment.

(** The run of [run_copr_build], path by path, whatever the collaborators
    do. *)
Lemma run_copr_build_any (env : Env) (h : Helper) (d : Database) :
  let building := ReportStatusToAll "Building SRPM ..." pending (Some "") in
  let srpm_failed :=
    ReportStatusToAll "SRPM build failed, check the logs for details." failure
      (Some (get_srpm_log_url_from_flask env (srpm_id (srpm_model env)))) in
  let rb := run_build env h None d in
  run_copr_build env h d
  = if negb (Py.truthy_obj (job_build h) || Py.truthy_obj (job_tests h)) then
      mkRun [] d
        (Ok (mkTaskResults false {[ "msg" := "No copr_build or tests job defined." ]}))
    else
      match raises env building with
      | Some ex => mkRun [building] d (Raise ex)
      | None =>
      match raises env CreateSrpmIfNeeded with
      | Some ex => mkRun [building; CreateSrpmIfNeeded] d (Raise ex)
      | None =>
      if negb (srpm_success (srpm_model env)) then
        match raises env srpm_failed with
        | Some ex => mkRun [building; CreateSrpmIfNeeded; srpm_failed] d (Raise ex)
        | None =>
            mkRun [building; CreateSrpmIfNeeded; srpm_failed] d
              (Ok (mkTaskResults false
                     {[ "msg" := "SRPM build failed, check the logs for details." ]}))
        end
      else
        match outcome rb with
        | Raise ex =>
            let failed :=
              ReportStatusToAll ("Submit of the build failed: " +:+ exn_str ex)
                error None in
            match raises env (SendToSentry ex) with
            | Some ex' =>
                mkRun ([building; CreateSrpmIfNeeded] ++ calls rb ++ [SendToSentry ex])
                  d (Raise ex')
            | None =>
            match raises env failed with
            | Some ex' =>
                mkRun ([building; CreateSrpmIfNeeded] ++ calls rb
                       ++ [SendToSentry ex; failed]) d (Raise ex')
            | None =>
                mkRun ([building; CreateSrpmIfNeeded] ++ calls rb
                       ++ [SendToSentry ex; failed]) d
                  (Ok (mkTaskResults false
                         {[ "msg" := "Submit of the Copr build failed.";
                            "error" := exn_str ex ]}))
            end
            end
        | Ok (id, web_url) =>
            let after :=
              bind (for_each (elements (build_targets h))
                      (record_and_report env h id web_url))
                (λ _, bind (call env (CelerySendTask "task.babysit_copr_build" [id] 120))
                        (λ _, ret (mkTaskResults true ∅))) d in
            mkRun ([building; CreateSrpmIfNeeded] ++ calls rb ++ calls after)
              (db after) (outcome after)
        end
      end
      end.
Proof.
  intros building srpm_failed rb.
  unfold run_copr_build.
  destruct (negb (Py.truthy_obj (job_build h) || Py.truthy_obj (job_tests h)));
    [done|].
  unfold report_status_to_all, create_srpm_if_needed.
  rewrite bind_call. fold building. destruct (raises env building); [done|].
  rewrite bind_call. destruct (raises env CreateSrpmIfNeeded); [done|].
  destruct (negb (srpm_success (srpm_model env))).
  { rewrite bind_call. fold srpm_failed. by destruct (raises env srpm_failed). }
  rewrite bind_attempt. fold rb.
  assert (Hdb : db rb = d) by apply run_build_keeps_db. rewrite Hdb.
  destruct (outcome rb) as [[id web_url]|ex].
  - reflexivity.
  - rewrite bind_call. cbv zeta.
    destruct (raises env (SendToSentry ex)); [done|].
    rewrite bind_call. by destruct (raises env (ReportStatusToAll _ _ _)).
Qed.

(** Splits a run of [run_copr_build] into the paths of
    [run_copr_build_any]. *)
Ltac run_copr_build_paths env h d :=
  rewrite (run_copr_build_any env h d); cbv zeta;
  destruct (Py.truthy_obj (job_build h) || Py.truthy_obj (job_tests h)) eqn:Hjob;
  cbn [negb];
  [ destruct (raises env (ReportStatusToAll "Building SRPM ..." pending (Some "")))
      as [raised|] eqn:Hbuilding;
    [ | destruct (raises env CreateSrpmIfNeeded) as [raised|] eqn:Hcreate;
        [ | destruct (srpm_success (srpm_model env)) eqn:Hsrpm; cbn [negb];
            [ destruct (outcome (run_build env h None d)) as [[id web_url]|ex] eqn:Hrun;
              [ | destruct (raises env (SendToSentry ex)) as [raised|] eqn:Hsentry;
                  [ | destruct (raises env (ReportStatusToAll _ error None))
                        as [raised|] eqn:Hfailed ] ]
            | destruct (raises env (ReportStatusToAll _ failure _))
                as [raised|] eqn:Hsrpm_failed ] ] ]
  | ];
  cbn [calls db outcome].

(** X7. With a job configured, the source package built and no owner to
    be found, [run_copr_build] (its own calls returning) calls Copr not at
    all: it sends the [PackitCoprException] to Sentry, reports an error
    status with its text to all targets and returns a failure result that
    carries the text; the table is as it was. *)
Theorem run_copr_build_owner_not_set (env : Env) (h : Helper) (d : Database) :
  let ex :=
    PackitCoprException
      "Copr owner not set. Use Copr config file or `--owner` when calling packit CLI." in
  Py.truthy_obj (job_build h) || Py.truthy_obj (job_tests h) = true →
  srpm_success (srpm_model env) = true →
  (∀ c, outside_try c = true → raises env c = None) →
  Py.truthy_str (Py.or_str (job_owner h) (configured_owner h)) = false →
  run_copr_build env h d
  = mkRun
      [ReportStatusToAll "Building SRPM ..." pending (Some "");
       CreateSrpmIfNeeded;
       SendToSentry ex;
       ReportStatusToAll ("Submit of the build failed: " +:+ exn_str ex) error None]
      d
      (Ok (mkTaskResults false
             {[ "msg" := "Submit of the Copr build failed.";
                "error" := exn_str ex ]})).
Proof.
  intros ex Hjob Hsrpm Hreturns Hnone.
  assert (Hrun : run_build env h None d = mkRun [] d (Raise ex)).
  { unfold run_build. by rewrite Hnone. }
  rewrite (run_copr_build_submit_failed_run env h d Hjob Hsrpm Hreturns ex)
    by (by rewrite Hrun).
  by rewrite Hrun.
Qed.

Lemma run_copr_build_owner_not_set_witness :
  Py.truthy_obj (job_build MoreExamples.helper_no_owner)
    || Py.truthy_obj (job_tests MoreExamples.helper_no_owner) = true
  ∧ srpm_success (srpm_model Examples.env_ok) = true
  ∧ (∀ c, outside_try c = true → raises Examples.env_ok c = None)
  ∧ Py.truthy_str (Py.or_str (job_owner MoreExamples.helper_no_owner)
                     (configured_owner MoreExamples.helper_no_owner)) = false
  ∧ outcome (run_copr_build Examples.env_ok MoreExamples.helper_no_owner ∅)
    = Ok (mkTaskResults false
            {[ "msg" := "Submit of the Copr build failed.";
               "error" := "Copr owner not set. Use Copr config file or `--owner` when calling packit CLI." ]}).
Proof.
  split; [reflexivity|]. split; [reflexivity|]. split; [reflexivity|].
  split; [reflexivity|].
  by rewrite (run_copr_build_owner_not_set Examples.env_ok
                MoreExamples.helper_no_owner ∅ eq_refl eq_refl (λ _ _, eq_refl) eq_refl).
Defined.

(** X8. Whatever the collaborators do, a run of [run_copr_build] that
    returns a failure result has left the build table as it was, has
    created or fetched no build record, has reported no status for a
    single target and has enqueued no task. *)
Theorem run_copr_build_failure_leaves_nothing (env : Env) (h : Helper)
    (d : Database) (res : TaskResults) :
  let r := run_copr_build env h d in
  outcome r = Ok res →
  tr_success res = false →
  db r = d
  ∧ Forall (λ c, match c with
                 | CoprBuildGetOrCreate _ | ReportStatusToAllForChroot _ _ _ _
                 | CelerySendTask _ _ _ => False
                 | _ => True
                 end) (calls r).
Proof.
  intros r. subst r.
  assert (Hinside : Forall (λ c, match c with
                                 | CoprBuildGetOrCreate _
                                 | ReportStatusToAllForChroot _ _ _ _
                                 | CelerySendTask _ _ _ => False
                                 | _ => True
                                 end) (calls (run_build env h None d))).
  { eapply Forall_impl; [apply run_build_calls_inside|].
    by intros []. }
  run_copr_build_paths env h d; intros Hres Hnot; try discriminate;
    try (split; [done|]; repeat constructor; done).
  - destruct (after_submission_run env h id web_url d) as (_ & [(_ & [e He] & _)|(_ & _ & [He|[e He]])]);
      cbv zeta in He; rewrite He in Hres; by simplify_eq/=.
  - split; [done|]. repeat constructor.
    apply Forall_app. split; [done|]. by repeat constructor.
Qed.

Lemma run_copr_build_failure_leaves_nothing_witness :
  outcome (run_copr_build Examples.env_settings_denied Examples.helper_pr ∅)
  = Ok (mkTaskResults false
          {[ "msg" := "Submit of the Copr build failed.";
             "error" := "Copr project update failed." ]})
  ∧ db (run_copr_build Examples.env_settings_denied Examples.helper_pr ∅) = ∅.
Proof.
  split; [reflexivity|].
  apply (run_copr_build_failure_leaves_nothing
           Examples.env_settings_denied Examples.helper_pr ∅
           (mkTaskResults false
              {[ "msg" := "Submit of the Copr build failed.";
                 "error" := "Copr project update failed." ]}));
    reflexivity.
Defined.

(** X9. Whatever the collaborators do, [run_copr_build] calls Copr or
    comments on the pull request only with a job configured, after the
    pending status [Building SRPM ...] was reported and the source package
    was built, both calls having returned, and with the source-package
    record saying the build succeeded. *)
Theorem run_copr_build_copr_after_srpm (env : Env) (h : Helper) (d : Database)
    (c : Call) :
  let r := run_copr_build env h d in
  c ∈ calls r →
  outside_try c = false →
  Py.truthy_obj (job_build h) || Py.truthy_obj (job_tests h) = true
  ∧ raises env (ReportStatusToAll "Building SRPM ..." pending (Some "")) = None
  ∧ raises env CreateSrpmIfNeeded = None
  ∧ srpm_success (srpm_model env) = true
  ∧ ∃ rest, calls r
            = ReportStatusToAll "Building SRPM ..." pending (Some "")
              :: CreateSrpmIfNeeded :: rest.
Proof.
  intros r. subst r.
  run_copr_build_paths env h d; intros Hin Hinside;
    try (repeat split; by eauto);
    repeat (apply elem_of_cons in Hin as [->|Hin]; [discriminate|]);
    by apply elem_of_nil in Hin.
Qed.

Lemma run_copr_build_copr_after_srpm_witness :
  ensure_call Examples.helper_pr
    ∈ calls (run_copr_build Examples.env_ok Examples.helper_pr ∅)
  ∧ outside_try (ensure_call Examples.helper_pr) = false
  ∧ srpm_success (srpm_model Examples.env_ok) = true.
Proof.
  assert (Hin : ensure_call Examples.helper_pr
                  ∈ calls (run_copr_build Examples.env_ok Examples.helper_pr ∅)).
  { apply elem_of_cons. right. apply elem_of_cons. right.
    apply elem_of_cons. by left. }
  split; [exact Hin|]. split; [reflexivity|].
  apply (run_copr_build_copr_after_srpm Examples.env_ok Examples.helper_pr ∅
           (ensure_call Examples.helper_pr) Hin eq_refl).
Defined.

(** ** Exceptions that leave [run_copr_build] *)

Section Escapes.

Variable env : Env.

Lemma escapes_ret {A} (a : A) : escapes_from_last env (ret a).
Proof. intros d ex Hraise. discriminate. Qed.

Lemma escapes_call (c : Call) :
  outside_try c = true → escapes_from_last env (call env c).
Proof.
  intros Hc d ex. unfold call.
  destruct (raises env c) as [ex'|] eqn:Hraises; cbn; [|discriminate].
  intros [= ->]. by exists [], c.
Qed.

Lemma escapes_bind {A B} (m : M A) (k : A → M B) :
  escapes_from_last env m → (∀ a, escapes_from_last env (k a)) →
  escapes_from_last env (bind m k).
Proof.
  intros Hm Hk d ex. unfold bind.
  destruct (outcome (m d)) as [a|ex'] eqn:Hout; cbn.
  - intros Hraise. destruct (Hk a _ _ Hraise) as (before & c & -> & Hc & Hraises).
    exists (calls (m d) ++ before)%list, c. by rewrite app_assoc.
  - intros [= ->]. by apply Hm.
Qed.

Lemma escapes_get_or_create (a : CoprBuildArgs) :
  escapes_from_last env (get_or_create env a).
Proof.
  intros d ex. unfold get_or_create.
  destruct (raises env (CoprBuildGetOrCreate a)) as [ex'|] eqn:Hraises; cbn.
  - intros [= ->]. by exists [], (CoprBuildGetOrCreate a).
  - by destruct (fetch_or_insert a d).
Qed.

Lemma escapes_for_each {A} (l : list A) (f : A → M unit) :
  (∀ x, escapes_from_last env (f x)) → escapes_from_last env (for_each l f).
Proof.
  intros Hf. induction l as [|x l IH]; cbn [for_each].
  - apply escapes_ret.
  - apply escapes_bind; [apply Hf|]. by intros _.
Qed.

End Escapes.

(** X10. An exception leaves [run_copr_build] only when one of the calls
    it makes outside its [try] block raised it: a status report, the
    source-package build, the report to Sentry, creating or fetching a
    build record, or enqueuing the task.  That call is the last one of
    the run. *)
Theorem run_copr_build_escapes (env : Env) (h : Helper) (d : Database) (ex : exn) :
  let r := run_copr_build env h d in
  outcome r = Raise ex →
  ∃ before c, calls r = (before ++ [c])%list
              ∧ outside_try c = true
              ∧ raises env c = Some ex.
Proof.
  intros r. subst r. revert ex.
  enough (Hescapes : escapes_from_last env (run_copr_build env h))
    by (intros ex; apply Hescapes).
  unfold run_copr_build, report_status_to_all, create_srpm_if_needed.
  case_match; [apply escapes_ret|].
  apply escapes_bind; [by apply escapes_call|]. intros _.
  apply escapes_bind; [by apply escapes_call|]. intros _.
  case_match.
  { apply escapes_bind; [by apply escapes_call|]. intros _. apply escapes_ret. }
  apply escapes_bind; [intros d' ex'; discriminate|].
  intros [[id web_url]|raised].
  - apply escapes_bind.
    + apply escapes_for_each. intros chroot.
      apply escapes_bind; [apply escapes_get_or_create|].
      intros row. by apply escapes_call.
    + intros _. apply escapes_bind; [by apply escapes_call|].
      intros _. apply escapes_ret.
  - apply escapes_bind; [by apply escapes_call|]. intros _.
    apply escapes_bind; [by apply escapes_call|]. intros _.
    apply escapes_ret.
Qed.

Lemma run_copr_build_escapes_witness :
  outcome (run_copr_build Examples.env_queue_down Examples.helper_pr ∅)
  = Raise (OtherException "OperationalError" "[Errno 111] Connection refused")
  ∧ ∃ before c,
      calls (run_copr_build Examples.env_queue_down Examples.helper_pr ∅)
      = (before ++ [c])%list
      ∧ outside_try c = true
      ∧ raises Examples.env_queue_down c
        = Some (OtherException "OperationalError" "[Errno 111] Connection refused").
Proof.
  assert (Hraise :
    outcome (run_copr_build Examples.env_queue_down Examples.helper_pr ∅)
    = Raise (OtherException "OperationalError" "[Errno 111] Connection refused"))
    by (vm_compute; reflexivity).
  split; [exact Hraise|].
  apply (run_copr_build_escapes Examples.env_queue_down Examples.helper_pr ∅ _ Hraise).
Defined.

(** ** The build table and the task *)

(** X11. Whatever the collaborators do, [run_copr_build] changes and
    removes no row of the build table, and a key gets a row only when
    [run_build] returned a build id and the key is that id with one of the
    build targets. *)
Theorem run_copr_build_table_grows (env : Env) (h : Helper) (d : Database) :
  let r := run_copr_build env h d in
  (∀ key row, d !! key = Some row → db r !! key = Some row)
  ∧ (∀ key, db r !! key ≠ d !! key →
       ∃ id web_url chroot,
         outcome (run_build env h None d) = Ok (id, web_url)
         ∧ chroot ∈ build_targets h
         ∧ key = (Py.str_int id, chroot)).
Proof.
  intros r. subst r.
  run_copr_build_paths env h d; try (split; [done|]; intros key Hkey; done).
  destruct (after_submission_run env h id web_url d) as [-> _].
  destruct (targets_loop_any env h id web_url (elements (build_targets h)) d)
    as (Hkeep & Hframe & _).
  split; [exact Hkeep|].
  intros key Hkey. exists id, web_url.
  destruct (decide (key ∈ (λ chroot, (Py.str_int id, chroot)) <$> elements (build_targets h)))
    as [Hin|Hnotin].
  - apply list_elem_of_fmap in Hin as (chroot & -> & Hin).
    exists chroot. by rewrite <- elem_of_elements.
  - exfalso. apply Hkey, Hframe. intros chroot Hin ->.
    apply Hnotin, list_elem_of_fmap. eauto.
Qed.

(** X12. Whatever the collaborators do, the task is enqueued at most
    once, as the last call of [run_copr_build], for the build id
    [run_build] returned and with a countdown of 120; by then every build
    target has its row in the build table. *)
Theorem run_copr_build_task_is_last (env : Env) (h : Helper) (d : Database)
    (i : nat) (name : string) (args : list (option Z)) (countdown : Z) :
  let r := run_copr_build env h d in
  calls r !! i = Some (CelerySendTask name args countdown) →
  S i = length (calls r)
  ∧ name = "task.babysit_copr_build"
  ∧ countdown = 120
  ∧ ∃ id web_url,
      outcome (run_build env h None d) = Ok (id, web_url)
      ∧ args = [id]
      ∧ ∀ chroot, chroot ∈ build_targets h →
          is_Some (db r !! (Py.str_int id, chroot)).
Proof.
  intros r. subst r.
  set (quiet := λ c, match c with CelerySendTask _ _ _ => False | _ => True end).
  assert (Hinside : Forall quiet (calls (run_build env h None d))).
  { eapply Forall_impl; [apply run_build_calls_inside|]. by intros []. }
  assert (Hnot_here : ∀ l, Forall quiet l →
            l !! i = Some (CelerySendTask name args countdown) → False).
  { intros l Hl Hi. apply (Forall_lookup_1 _ _ _ _ Hl Hi). }
  run_copr_build_paths env h d; intros Hi;
    try (exfalso; refine (Hnot_here _ _ Hi);
         repeat first [ exact Hinside | apply List.Forall_nil
                      | apply List.Forall_cons; [exact I|]
                      | apply Forall_app; split ]; fail).
  destruct (targets_loop_any env h id web_url (elements (build_targets h)) d)
    as (_ & _ & Hloop & Hrows).
  assert (Hloop' : Forall quiet
            (calls (for_each (elements (build_targets h))
                      (record_and_report env h id web_url) d))).
  { eapply Forall_impl; [exact Hloop|]. by intros []. }
  destruct (after_submission_run env h id web_url d)
    as (Hdb & [(Hcalls & _)|(Hcalls & Hdone & _)]);
    cbv zeta in Hdb, Hcalls; rewrite Hcalls in Hi |- *.
  - exfalso. refine (Hnot_here _ _ Hi).
    repeat (apply List.Forall_cons; [exact I|]). apply Forall_app. by split.
  - rewrite Hdb. rewrite !app_assoc in Hi |- *.
    apply lookup_app_Some in Hi as [Hi|[Hlen Hi]].
    { exfalso. refine (Hnot_here _ _ Hi).
      repeat (apply Forall_app; split); try done.
      by repeat (apply List.Forall_cons; [exact I|]). }
    apply list_lookup_singleton_Some in Hi as [Hzero Hsend].
    injection Hsend as <- <- <-.
    split; [rewrite length_app; cbn [length]; lia|].
    split; [done|]. split; [done|].
    exists id, web_url. split; [done|]. split; [done|].
    intros chroot Hin. apply Hrows; [done|]. by apply elem_of_elements.
Qed.

Lemma run_copr_build_task_is_last_witness :
  calls (run_copr_build Examples.env_ok Examples.helper_pr ∅) !! 8%nat
  = Some (CelerySendTask "task.babysit_copr_build" [Some 42] 120)
  ∧ 9%nat = length (calls (run_copr_build Examples.env_ok Examples.helper_pr ∅))
  ∧ is_Some (db (run_copr_build Examples.env_ok Examples.helper_pr ∅)
               !! ("42", "fedora-32-x86_64")).
Proof.
  assert (Hi : calls (run_copr_build Examples.env_ok Examples.helper_pr ∅) !! 8%nat
               = Some (CelerySendTask "task.babysit_copr_build" [Some 42] 120))
    by (vm_compute; reflexivity).
  split; [exact Hi|].
  destruct (run_copr_build_task_is_last Examples.env_ok Examples.helper_pr ∅
              8%nat _ _ _ Hi)
    as (Hlast & _ & _ & id & web_url & Hrun & Hargs & Hrows).
  split; [exact Hlast|].
  injection Hargs as <-. apply (Hrows "fedora-32-x86_64").
  apply elem_of_union. left. by apply elem_of_singleton.
Defined.

(** ** The name of the Copr project *)

Lemma string_app_same (s t : string) : s +:+ t = s → t = "".
Proof.
  induction s as [|x s IH]; [done|].
  change (String x (s +:+ t) = String x s → t = "").
  intros [= Heq]. by apply IH.
Qed.

(** X13. A project name set in the build job is the project of every
    deployment.  Without one, the project is named after the repository
    and the event; the name of the staging deployment is the name of
    production with [-stg] appended, hence another project, and the
    development deployment uses the name of production. *)
Theorem job_project_per_deployment (h : Helper) :
  let configured :=
    match job_build h with
    | Some jb => jm_project jb
    | None => None
    end in
  (Py.truthy_str configured = true →
   ∀ dep, job_project (with_deployment dep h) = Py.str_str configured)
  ∧ (Py.truthy_str configured = false →
     job_project (with_deployment prod h)
     = project_namespace h +:+ "-" +:+ project_repo h +:+ "-"
         +:+ Py.str_str (md_identifier h)
     ∧ job_project (with_deployment stg h)
       = job_project (with_deployment prod h) +:+ "-stg"
     ∧ job_project (with_deployment stg h) ≠ job_project (with_deployment prod h)
     ∧ job_project (with_deployment dev h) = job_project (with_deployment prod h)).
Proof.
  intros configured.
  assert (Hdefault : ∀ dep, Py.truthy_str configured = false →
            job_project (with_deployment dep h)
            = default_project_name (with_deployment dep h)).
  { intros dep. subst configured. unfold job_project. cbn [job_build with_deployment].
    destruct (job_build h) as [jb|]; [|done].
    destruct (jm_project jb) as [p|]; [|done]. by intros ->. }
  split.
  - intros Hset dep. subst configured. unfold job_project.
    cbn [job_build with_deployment].
    destruct (job_build h) as [jb|]; [|done].
    destruct (jm_project jb) as [p|]; [|done]. by rewrite Hset.
  - intros Hunset. rewrite !Hdefault by done.
    unfold default_project_name. cbn [deployment with_deployment project_namespace
      project_repo md_identifier].
    rewrite !string_app_nil_r.
    assert (Hstg : project_namespace h +:+ "-" +:+ project_repo h +:+ "-"
                     +:+ Py.str_str (md_identifier h) +:+ "-stg"
                   = (project_namespace h +:+ "-" +:+ project_repo h +:+ "-"
                        +:+ Py.str_str (md_identifier h)) +:+ "-stg")
      by (by rewrite !string_app_assoc).
    split; [done|]. split; [done|]. split; [|done].
    rewrite Hstg. intros Heq. by apply string_app_same in Heq.
Qed.

(** ** The allowlist, one operation at a time *)

Module AllowlistSteps.
Import Allowlist.

Lemma get_account_upsert_other (name st other : string) (t : Table) :
  other ≠ name → get_account other (upsert name st t) = get_account other t.
Proof.
  intros Hne. unfold get_account.
  induction t as [|row rest IH]; cbn.
  - by destruct (String.eqb_spec name other).
  - destruct (String.eqb_spec (account_name row) name) as [Heq|Hrow]; cbn.
    + destruct (String.eqb_spec name other); [done|].
      by destruct (String.eqb_spec (account_name row) other); [congruence|].
    + by destruct (String.eqb_spec (account_name row) other).
Qed.

Lemma length_upsert (name st : string) (t : Table) :
  length (upsert name st t)
  = match get_account name t with
    | Some _ => length t
    | None => S (length t)
    end.
Proof.
  unfold get_account.
  induction t as [|row rest IH]; cbn; [done|].
  destruct (String.eqb_spec (account_name row) name); cbn; [done|].
  rewrite IH. by destruct (find _ rest).
Qed.

Lemma get_account_remove (name other : string) (t : Table) :
  get_account other (remove_account name t)
  = if String.eqb other name then None else get_account other t.
Proof.
  unfold get_account, remove_account.
  induction t as [|row rest IH]; cbn.
  - by destruct (String.eqb other name).
  - destruct (String.eqb_spec (account_name row) name) as [Heq|Hrow]; cbn.
    + rewrite IH. destruct (String.eqb_spec other name) as [->|Hother]; [done|].
      by destruct (String.eqb_spec (account_name row) other); [congruence|].
    + destruct (String.eqb_spec (account_name row) other) as [Heq|Hrow'].
      * by destruct (String.eqb_spec other name); [congruence|].
      * exact IH.
Qed.

Lemma remove_absent (name : string) (t : Table) :
  get_account name t = None → remove_account name t = t.
Proof.
  unfold get_account, remove_account.
  induction t as [|row rest IH]; cbn; [done|].
  destruct (String.eqb_spec (account_name row) name); cbn; [done|].
  intros Hrest. by rewrite IH.
Qed.




End AllowlistSteps.

(** X14. Removing an account makes [get_account] return nothing for it
    and leaves what it returns for every other account; removing an
    account that has no row leaves the table as it is. *)
Theorem allowlist_remove_account (t : Allowlist.Table) (name other : string) :
  Allowlist.get_account name (Allowlist.remove_account name t) = None
  ∧ (other ≠ name →
     Allowlist.get_account other (Allowlist.remove_account name t)
     = Allowlist.get_account other t)
  ∧ (Allowlist.get_account name t = None → Allowlist.remove_account name t = t).
Proof.
  split; [|split].
  - rewrite AllowlistSteps.get_account_remove. by rewrite String.eqb_refl.
  - intros Hne. rewrite AllowlistSteps.get_account_remove.
    by destruct (String.eqb_spec other name).
  - apply AllowlistSteps.remove_absent.
Qed.

(** X15. Adding an account makes [get_account] return its name with the
    status added, leaves what it returns for every other account, and
    adds a row only when the account had none. *)
Theorem allowlist_add_account (t : Allowlist.Table) (name st other : string) :
  let added := (Allowlist.add_account name st t).1 in
  Allowlist.get_account name added = Some (Allowlist.mkAllowlistModel name st)
  ∧ (other ≠ name → Allowlist.get_account other added = Allowlist.get_account other t)
  ∧ length added
    = match Allowlist.get_account name t with
      | Some _ => length t
      | None => S (length t)
      end.
Proof.
  intros added. subst added. cbn [Allowlist.add_account fst].
  split; [apply AllowlistFacts.get_account_upsert|]. split.
  - apply AllowlistSteps.get_account_upsert_other.
  - apply AllowlistSteps.length_upsert.
Qed.

